(** * Order placement and status workflow of the campus food-ordering backend

    Shallow embedding of [OrderController] (createOrder, getOrderById,
    cancelOrder, updateOrderStatus) over a model of the Prisma store
    described by [schema.prisma].

    Conventions of the model:
    - JavaScript numbers are IEEE-754 binary64 values, modelled with the
      kernel's primitive floats ([PrimFloat]); prices are [Decimal(8,2)]
      columns, kept as integer cents, and [Number(price)] is the double
      nearest to [cents / 100].
    - A Prisma interactive transaction ([prisma.$transaction]) runs its
      callback against the store; every write may be rejected by the
      database (the [Faults] oracle says which write of the transaction is
      rejected) and Prisma's own input checks (required fields, enum values)
      are written out.  A rejected write throws, and the transaction is rolled
      back in full.
    - Reads outside a transaction do not fail. *)

From Stdlib Require Import ZArith List String Bool Floats Lia.
From Stdlib Require Import DecimalString.
From Stdlib Require Import Sorted Permutation Ascii.
Import ListNotations.

Open Scope Z_scope.
Set Warnings "-inexact-float".

(** ** Enums of [schema.prisma] *)

Inductive OrderStatus := PENDING | PREPARING | READY | DELIVERED | CANCELLED.
Inductive PaymentMethod := YAPE | PLIN | TUNKI | CASH.
Inductive Role := CLIENT | ADMIN.
Inductive NotificationType := ORDER | PROMO | SYSTEM.

(** Prisma accepts an enum field given as a string only when it is one of
    the enum's literals. *)
Definition OrderStatus_of_string (s : string) : option OrderStatus :=
  if String.eqb s "PENDING" then Some PENDING
  else if String.eqb s "PREPARING" then Some PREPARING
  else if String.eqb s "READY" then Some READY
  else if String.eqb s "DELIVERED" then Some DELIVERED
  else if String.eqb s "CANCELLED" then Some CANCELLED
  else None.

Definition string_of_OrderStatus (s : OrderStatus) : string :=
  match s with
  | PENDING => "PENDING"
  | PREPARING => "PREPARING"
  | READY => "READY"
  | DELIVERED => "DELIVERED"
  | CANCELLED => "CANCELLED"
  end.

Definition PaymentMethod_of_string (s : string) : option PaymentMethod :=
  if String.eqb s "YAPE" then Some YAPE
  else if String.eqb s "PLIN" then Some PLIN
  else if String.eqb s "TUNKI" then Some TUNKI
  else if String.eqb s "CASH" then Some CASH
  else None.

Definition OrderStatus_eqb (a b : OrderStatus) : bool :=
  match a, b with
  | PENDING, PENDING | PREPARING, PREPARING | READY, READY
  | DELIVERED, DELIVERED | CANCELLED, CANCELLED => true
  | _, _ => false
  end.

(** ** JavaScript numbers *)

(** An integer as a JS number (the nearest double). *)
Definition z_to_number (z : Z) : float :=
  SF2Prim (SpecFloat.binary_normalize FloatOps.prec FloatOps.emax z 0 false).

(** [Number(d)] for a [Decimal(8,2)] value [d] held as its cents. *)
Definition decimal_to_number (cents : Z) : float :=
  PrimFloat.div (z_to_number cents) (z_to_number 100).

(** Template-literal rendering of an integer id. *)
Definition string_of_Z (z : Z) : string := NilZero.string_of_int (Z.to_int z).

(** A JSON object (customizations) as its key/value pairs. *)
Definition Json := list (string * string).

(** ** Writing a JS number into a [Decimal(8,2)] column *)

(** Prisma sends a number given for a [Decimal] field as the decimal that
    JavaScript prints for it ([Number::toString], the shortest decimal that
    reads back as the same double); PostgreSQL rounds that decimal to the
    column's scale 2, half away from zero, and refuses it ("numeric field
    overflow") when the rounded value needs more than the 6 integer digits
    of precision 8.  [NaN] and the infinities are printed as [null], which
    Prisma refuses for these required columns. *)

(** The rational [n * 2^e2 * 10^e10] as a numerator and a positive
    denominator. *)
Definition scaled (n e2 e10 : Z) : Z * Z :=
  (n * 2 ^ Z.max e2 0 * 10 ^ Z.max e10 0,
   2 ^ Z.max (- e2) 0 * 10 ^ Z.max (- e10) 0).

Definition q_le (a b : Z * Z) : bool := Z.leb (fst a * snd b) (fst b * snd a).
Definition q_lt (a b : Z * Z) : bool := Z.ltb (fst a * snd b) (fst b * snd a).

(** [floor (log10 n)] for [n >= 1]. *)
Fixpoint log10_floor (fuel : nat) (n : Z) : Z :=
  match fuel with
  | O => 0
  | S fuel' => if Z.ltb n 10 then 0 else 1 + log10_floor fuel' (n / 10)
  end.

(** The least [t >= 1] with [num * 10^t >= den]. *)
Fixpoint log10_neg (fuel : nat) (num den t : Z) : Z :=
  match fuel with
  | O => t
  | S fuel' =>
      if Z.leb den (num * 10 ^ t) then t else log10_neg fuel' num den (t + 1)
  end.

(** [floor (log10 (m * 2^e))] for [m >= 1]. *)
Definition decimal_exponent (m e : Z) : Z :=
  let '(num, den) := scaled m e 0 in
  if Z.leb den num then log10_floor 400 (num / den)
  else - log10_neg 400 num den 1.

(** The reals that round to the double [m * 2^e] ([m >= 1]): the interval
    between the midpoints to its neighbours, with the endpoints included
    when [m] is even (ties go to even).  The gap below is halved at a power
    of two above the subnormal range.  [lo] and [hi] are in units of
    [2^(e-2)]. *)
Definition in_rounding_interval (m e : Z) (v : Z * Z) : bool :=
  let g := if Z.eqb m (2 ^ 52) && Z.ltb (-1074) e then 1 else 2 in
  let lo := scaled (4 * m - g) (e - 2) 0 in
  let hi := scaled (4 * m + 2) (e - 2) 0 in
  if Z.even m then q_le lo v && q_le v hi else q_lt lo v && q_lt v hi.

(** Digits [d] and exponent [p] of the shortest decimal [d * 10^p] that
    reads back as the double [m * 2^e]: the largest [p] (fewest digits) at
    which a multiple of [10^p] lies in the rounding interval, and of the
    (at most two) candidates around [m * 2^e / 10^p] the nearer one, the
    even one on a tie. *)
Fixpoint shortest_search (fuel : nat) (m e p : Z) : Z * Z :=
  let '(xn, xd) := scaled m e (- p) in
  let dl := xn / xd in
  let du := if Z.eqb (xn mod xd) 0 then dl else dl + 1 in
  let okl := in_rounding_interval m e (scaled dl 0 p) in
  let oku := in_rounding_interval m e (scaled du 0 p) in
  let nearer :=
    match Z.compare (xn - dl * xd) (du * xd - xn) with
    | Lt => dl
    | Gt => du
    | Eq => if Z.even dl then dl else du
    end in
  match fuel with
  | O => (nearer, p)
  | S fuel' =>
      if okl && oku then (nearer, p)
      else if okl then (dl, p)
      else if oku then (du, p)
      else shortest_search fuel' m e (p - 1)
  end.

Definition shortest_decimal (m e : Z) : Z * Z :=
  shortest_search 17 m e (decimal_exponent m e).

(** PostgreSQL's rounding of [d * 10^p] ([d >= 0]) to hundredths, half
    away from zero, in cents. *)
Definition round_scale_2 (d p : Z) : Z :=
  if Z.leb 0 (p + 2) then d * 10 ^ (p + 2)
  else let q := 10 ^ (- (p + 2)) in (2 * d + q) / (2 * q).

(** The cents a [Decimal(8,2)] column stores for the JS number [x], or
    [None] when the write is refused. *)
Definition decimal_8_2_of_number (x : float) : option Z :=
  match Prim2SF x with
  | S754_zero _ => Some 0
  | S754_finite s m e =>
      let '(d, p) := shortest_decimal (Zpos m) e in
      let c := round_scale_2 d p in
      if Z.ltb c (10 ^ 8) then Some (if s then - c else c) else None
  | _ => None
  end.

(** An [Int] column holds a 32-bit integer. *)
Definition int4_ok (n : Z) : bool :=
  Z.leb (-2147483648) n && Z.leb n 2147483647.

(** ** Rows of the store *)

Module Product.
Record t := mk {
  id : Z;
  name : string;
  description : option string;
  price : Z;            (* Decimal(8,2), in cents *)
  imageUrl : option string;
  isAvailable : bool
}.
End Product.

(** The [Decimal(8,2)] columns [subtotal], [deliveryFee] and [total] are
    held in cents. *)
Module Order.
Record t := mk {
  id : Z;
  userId : Z;
  status : OrderStatus;
  deliveryLocation : string;
  paymentMethod : PaymentMethod;
  subtotal : Z;
  deliveryFee : Z;
  total : Z;
  notes : option string;
  createdAt : Z;
  updatedAt : Z
}.
End Order.

(** [unitPrice] and [subtotal] are [Decimal(8,2)], in cents. *)
Module OrderItem.
Record t := mk {
  id : Z;
  orderId : Z;
  productId : Z;
  quantity : Z;
  unitPrice : Z;
  customizations : option Json;
  specialNotes : option string;
  subtotal : Z
}.
End OrderItem.

Module Notification.
Record t := mk {
  id : Z;
  userId : Z;
  title : string;
  message : string;
  type : NotificationType;
  isRead : bool;
  orderId : option Z;
  createdAt : Z
}.
End Notification.

(** The [users] table (the password hash and timestamps are not read by the
    code modelled here). *)
Module User.
Record t := mk {
  id : Z;
  email : string;
  firstName : string;
  lastName : string;
  phone : option string;
  role : Role;
  isVerified : bool;
  isActive : bool
}.
End User.

(** The store: the tables the workflow writes and the autoincrement
    counters of their ids.  The order operations only read the [users]
    table, which is passed to them alongside. *)
Record Db := mkDb {
  products : list Product.t;
  orders : list Order.t;
  orderItems : list OrderItem.t;
  notifications : list Notification.t;
  nextOrderId : Z;
  nextOrderItemId : Z;
  nextNotificationId : Z
}.

Definition findProduct (db : Db) (pid : Z) : option Product.t :=
  find (fun p => Z.eqb (Product.id p) pid) (products db).

Definition findOrder (db : Db) (oid : Z) : option Order.t :=
  find (fun o => Z.eqb (Order.id o) oid) (orders db).

Definition findUser (users : list User.t) (uid : Z) : option User.t :=
  find (fun u => Z.eqb (User.id u) uid) users.

(** ** Request bodies ([src/types/orderTypes.ts]) *)

Module OrderItemInput.
Record t := mk {
  productId : Z;
  quantity : option Z;
  customizations : option Json;
  specialNotes : option string
}.
End OrderItemInput.

(** The body of [POST /api/orders]; every field may be absent. *)
Module CreateOrderBody.
Record t := mk {
  items : option (list OrderItemInput.t);
  deliveryLocation : option string;
  paymentMethod : option string;
  notes : option string
}.
End CreateOrderBody.

(** A line as the pricing loop computes it, in JS numbers. *)
Module ProcessedOrderItem.
Record t := mk {
  productId : Z;
  quantity : Z;
  unitPrice : float;
  customizations : option Json;
  specialNotes : option string;
  subtotal : float
}.
End ProcessedOrderItem.

(** ** The [include] of each read *)

(** An order with its items, each with its product as the [select] of the
    query picks it, and the order's user as the query picks it. *)
Record OrderWith (P U : Type) := mkOrderWith {
  ow_order : Order.t;
  ow_items : list (OrderItem.t * option P);
  ow_user : U
}.

Arguments mkOrderWith {P U} ow_order ow_items ow_user.
Arguments ow_order {P U} o.
Arguments ow_items {P U} o.
Arguments ow_user {P U} o.

(** [product: { select: { id, name, imageUrl, price } }] *)
Record ProductCard := mkProductCard {
  pc_id : Z;
  pc_name : string;
  pc_imageUrl : option string;
  pc_price : Z
}.

(** [product: { select: { id, name, description, imageUrl, price } }] *)
Record ProductDetail := mkProductDetail {
  pd_id : Z;
  pd_name : string;
  pd_description : option string;
  pd_imageUrl : option string;
  pd_price : Z
}.

(** [product: { select: { id, name, imageUrl } }] *)
Record ProductBrief := mkProductBrief {
  pb_id : Z;
  pb_name : string;
  pb_imageUrl : option string
}.

(** [user: { select: { id, firstName, lastName, email } }] *)
Record UserContact := mkUserContact {
  uc_id : Z;
  uc_firstName : string;
  uc_lastName : string;
  uc_email : string
}.

(** [user: { select: { id, firstName, lastName, email, phone } }] *)
Record UserSummary := mkUserSummary {
  us_id : Z;
  us_firstName : string;
  us_lastName : string;
  us_email : string;
  us_phone : option string
}.

Definition product_card (p : Product.t) : ProductCard :=
  mkProductCard (Product.id p) (Product.name p) (Product.imageUrl p) (Product.price p).

Definition product_detail (p : Product.t) : ProductDetail :=
  mkProductDetail (Product.id p) (Product.name p) (Product.description p)
    (Product.imageUrl p) (Product.price p).

Definition product_brief (p : Product.t) : ProductBrief :=
  mkProductBrief (Product.id p) (Product.name p) (Product.imageUrl p).

Definition user_contact (u : User.t) : UserContact :=
  mkUserContact (User.id u) (User.firstName u) (User.lastName u) (User.email u).

Definition user_summary (u : User.t) : UserSummary :=
  mkUserSummary (User.id u) (User.firstName u) (User.lastName u) (User.email u)
    (User.phone u).

(** [include: { orderItems: { include: { product: { select } } }, user? }] *)
Definition include_order {P U} (select : Product.t -> P) (user : Order.t -> U)
  (db : Db) (o : Order.t) : OrderWith P U :=
  mkOrderWith o
    (map (fun i => (i, option_map select (findProduct db (OrderItem.productId i))))
       (filter (fun i => Z.eqb (OrderItem.orderId i) (Order.id o)) (orderItems db)))
    (user o).

(** The [include] of [createOrder]'s final [findUnique]. *)
Definition createOrder_include (db : Db) (users : list User.t) (o : Order.t)
  : OrderWith ProductCard (option UserContact) :=
  include_order product_card
    (fun o => option_map user_contact (findUser users (Order.userId o))) db o.

(** The [include] of [getOrderById]. *)
Definition getOrderById_include (db : Db) (users : list User.t) (o : Order.t)
  : OrderWith ProductDetail (option UserSummary) :=
  include_order product_detail
    (fun o => option_map user_summary (findUser users (Order.userId o))) db o.

(** The [include] of [getUserOrders]: no user. *)
Definition getUserOrders_include (db : Db) (o : Order.t)
  : OrderWith ProductCard unit :=
  include_order product_card (fun _ => tt) db o.

(** The [include] of [getAllOrders]. *)
Definition getAllOrders_include (db : Db) (users : list User.t) (o : Order.t)
  : OrderWith ProductBrief (option UserSummary) :=
  include_order product_brief
    (fun o => option_map user_summary (findUser users (Order.userId o))) db o.

(** ** Responses *)

Inductive ErrorCode :=
| INVALID_INPUT                (* "Datos de entrada inválidos" *)
| NO_ITEMS_IN_ORDER
| PRODUCT_NOT_FOUND
| PRODUCT_NOT_AVAILABLE
| MINIMUM_ORDER_NOT_MET
| ORDER_CREATE_ERROR
| INVALID_ORDER_ID
| ORDER_NOT_FOUND
| ORDER_ACCESS_DENIED
| ORDER_CANNOT_BE_CANCELLED
| ORDER_CANCEL_ERROR
| INVALID_STATUS_TRANSITION
| ORDER_STATUS_UPDATE_ERROR.

Inductive ResponseData :=
| DataOrder (o : Order.t)
| DataCreatedOrder (v : option (OrderWith ProductCard (option UserContact)))
| DataOrderDetail (v : OrderWith ProductDetail (option UserSummary)).

Inductive Response :=
| Success (httpStatus : Z) (data : ResponseData)
| Failure (httpStatus : Z) (code : ErrorCode).

Definition is_success (r : Response) : bool :=
  match r with Success _ _ => true | Failure _ _ => false end.

(** ** Prisma interactive transactions *)

(** [f k = true]: the database rejects the [k]-th write of the transaction
    (connection loss, constraint violation, ...). *)
Definition Faults := nat -> bool.

Definition no_faults : Faults := fun _ => false.

(** The callback of [prisma.$transaction]: a state and exception monad over
    the store, threading the number of writes issued so far. *)
Definition Tx (A : Type) := Faults -> nat -> Db -> option (A * nat * Db).

Definition tx_ret {A} (a : A) : Tx A := fun _ k db => Some (a, k, db).

Definition tx_bind {A B} (m : Tx A) (g : A -> Tx B) : Tx B :=
  fun f k db =>
    match m f k db with
    | Some (a, k', db') => g a f k' db'
    | None => None
    end.

Notation "x <- m ;; e" := (tx_bind m (fun x => e))
  (at level 61, m at next level, right associativity).

(** One [tx.<model>.<op>] call: [op] is Prisma's and the database's own
    checks and the write. *)
Definition tx_write {A} (op : Db -> option (A * Db)) : Tx A :=
  fun f k db =>
    if f k then None
    else match op db with
         | Some (a, db') => Some (a, S k, db')
         | None => None
         end.

(** [for (const x of l) await g(x)] *)
Fixpoint tx_for {X} (l : list X) (g : X -> Tx unit) : Tx unit :=
  match l with
  | [] => tx_ret tt
  | x :: l' => _ <- g x ;; tx_for l' g
  end.

(** [prisma.$transaction(body)]: commits the callback's writes when it
    returns, rolls all of them back when it throws.  (The model restores
    the counters too, a simplification: a PostgreSQL sequence keeps the
    ids a rolled-back insert drew, so after a failed transaction later
    inserts may get higher ids than in the model; nothing else differs.) *)
Definition prisma_transaction {A} (body : Tx A) (f : Faults) (db : Db)
  : option A * Db :=
  match body f O db with
  | Some (a, _, db') => (Some a, db')
  | None => (None, db)
  end.

(** ** Writes of the store *)

Definition set_orders (db : Db) (l : list Order.t) : Db :=
  mkDb (products db) l (orderItems db) (notifications db)
       (nextOrderId db) (nextOrderItemId db) (nextNotificationId db).

(** [data] of [tx.order.create], as the controller builds it. *)
Record OrderCreateData := mkOrderCreateData {
  ocd_userId : Z;
  ocd_deliveryLocation : option string;
  ocd_paymentMethod : option string;
  ocd_subtotal : float;
  ocd_deliveryFee : float;
  ocd_total : float;
  ocd_notes : option string;
  ocd_status : OrderStatus
}.

(** [tx.order.create]: Prisma refuses a missing required
    [deliveryLocation] and a [paymentMethod] outside the enum; the three
    money columns store their numbers rounded to cents, and a value that
    does not fit [Decimal(8,2)] makes the insert fail. *)
Definition order_create (now : Z) (d : OrderCreateData) (db : Db)
  : option (Order.t * Db) :=
  match ocd_deliveryLocation d,
        match ocd_paymentMethod d with
        | Some s => PaymentMethod_of_string s
        | None => None
        end,
        decimal_8_2_of_number (ocd_subtotal d),
        decimal_8_2_of_number (ocd_deliveryFee d),
        decimal_8_2_of_number (ocd_total d) with
  | Some loc, Some pm, Some subtotal, Some deliveryFee, Some total =>
      let o := Order.mk (nextOrderId db) (ocd_userId d) (ocd_status d) loc pm
                 subtotal deliveryFee total (ocd_notes d) now now in
      Some (o, mkDb (products db) (orders db ++ [o]) (orderItems db)
                    (notifications db) (nextOrderId db + 1)
                    (nextOrderItemId db) (nextNotificationId db))
  | _, _, _, _, _ => None
  end.

(** The row [tx.orderItem.create({ data: { orderId, ...item } })] inserts
    with id [id]: [quantity] must be a 32-bit integer, [unitPrice] and
    [subtotal] are rounded to cents and must fit [Decimal(8,2)]. *)
Definition orderItem_row (id orderId : Z) (item : ProcessedOrderItem.t)
  : option OrderItem.t :=
  if int4_ok (ProcessedOrderItem.quantity item) then
    match decimal_8_2_of_number (ProcessedOrderItem.unitPrice item),
          decimal_8_2_of_number (ProcessedOrderItem.subtotal item) with
    | Some unitPrice, Some subtotal =>
        Some (OrderItem.mk id orderId (ProcessedOrderItem.productId item)
                (ProcessedOrderItem.quantity item) unitPrice
                (ProcessedOrderItem.customizations item)
                (ProcessedOrderItem.specialNotes item) subtotal)
    | _, _ => None
    end
  else None.

Definition orderItem_create (orderId : Z) (item : ProcessedOrderItem.t)
  (db : Db) : option (unit * Db) :=
  match orderItem_row (nextOrderItemId db) orderId item with
  | Some i =>
      Some (tt, mkDb (products db) (orders db) (orderItems db ++ [i])
                     (notifications db) (nextOrderId db)
                     (nextOrderItemId db + 1) (nextNotificationId db))
  | None => None
  end.

(** [tx.notification.create]; [isRead] defaults to false. *)
Definition notification_create (now userId : Z) (title message : string)
  (type : NotificationType) (orderId : option Z) (db : Db)
  : option (unit * Db) :=
  let n := Notification.mk (nextNotificationId db) userId title message type
             false orderId now in
  Some (tt, mkDb (products db) (orders db) (orderItems db)
                 (notifications db ++ [n]) (nextOrderId db)
                 (nextOrderItemId db) (nextNotificationId db + 1)).

(** [tx.order.update({ where: { id }, data: { status } })]: Prisma refuses a
    status outside the enum and an id with no row; [updatedAt] is
    maintained by Prisma ([@updatedAt]). *)
Definition set_status (now : Z) (st : OrderStatus) (o : Order.t) : Order.t :=
  Order.mk (Order.id o) (Order.userId o) st (Order.deliveryLocation o)
    (Order.paymentMethod o) (Order.subtotal o) (Order.deliveryFee o)
    (Order.total o) (Order.notes o) (Order.createdAt o) now.

Definition order_update_status (now oid : Z) (status : string) (db : Db)
  : option (Order.t * Db) :=
  match OrderStatus_of_string status with
  | None => None
  | Some st =>
      match findOrder db oid with
      | None => None
      | Some o =>
          Some (set_status now st o,
                set_orders db (map (fun o' => if Z.eqb (Order.id o') oid
                                              then set_status now st o'
                                              else o') (orders db)))
      end
  end.

(** ** Route validation chains (express-validator) *)

Definition Validator (B : Type) := B -> list string.

(** [validationResult(req)]: the errors of the chain registered on the
    route. *)
Definition validationResult {B} (chain : list (Validator B)) (body : B)
  : list string :=
  flat_map (fun v => v body) chain.

(** [router.post("/", authenticateToken, OrderController.createOrder)]:
    the route registers no validation chain. *)
Definition createOrderValidation : list (Validator CreateOrderBody.t) := [].

(** [router.patch("/admin/:id/status", authenticateToken, requireAdmin,
    OrderController.updateOrderStatus)]: no validation chain either. *)
Definition updateOrderStatusValidation : list (Validator string) := [].

(** ** Pricing loop of [createOrder] *)

(** [item.quantity || 1] on an integer quantity. *)
Definition quantity_or_default (q : option Z) : Z :=
  match q with
  | Some n => if Z.eqb n 0 then 1 else n
  | None => 1
  end.

(** [s || null] on an optional string: the empty string is falsy. *)
Definition string_or_null (s : option string) : option string :=
  match s with
  | Some EmptyString => None
  | _ => s
  end.

Inductive PricingResult :=
| Priced (orderItems : list ProcessedOrderItem.t) (subtotal : float)
| PricingFailed (httpStatus : Z) (code : ErrorCode).

(** The [for (const item of items)] loop: looks each product up, rejects a
    missing or unavailable one, and pushes the processed line. *)
Fixpoint processItems (db : Db) (items : list OrderItemInput.t)
  (subtotal : float) (orderItems : list ProcessedOrderItem.t)
  : PricingResult :=
  match items with
  | [] => Priced orderItems subtotal
  | item :: rest =>
      match findProduct db (OrderItemInput.productId item) with
      | None => PricingFailed 404 PRODUCT_NOT_FOUND
      | Some product =>
          if negb (Product.isAvailable product)
          then PricingFailed 400 PRODUCT_NOT_AVAILABLE
          else
            let quantity := quantity_or_default (OrderItemInput.quantity item) in
            let unitPrice := decimal_to_number (Product.price product) in
            let itemSubtotal := PrimFloat.mul unitPrice (z_to_number quantity) in
            processItems db rest (PrimFloat.add subtotal itemSubtotal)
              (orderItems ++
                 [ProcessedOrderItem.mk (OrderItemInput.productId item) quantity
                    unitPrice (OrderItemInput.customizations item)
                    (string_or_null (OrderItemInput.specialNotes item))
                    itemSubtotal])
      end
  end.

(** ** createOrder *)

Definition confirm_message (orderId : Z) : string :=
  ("Tu pedido #" ++ string_of_Z orderId ++
   " ha sido confirmado y está siendo procesado.")%string.

Definition createOrderTx (now userId : Z) (body : CreateOrderBody.t)
  (subtotal deliveryFee total : float)
  (orderItems : list ProcessedOrderItem.t) : Tx Order.t :=
  newOrder <- tx_write (order_create now
                (mkOrderCreateData userId (CreateOrderBody.deliveryLocation body)
                   (CreateOrderBody.paymentMethod body) subtotal deliveryFee
                   total (CreateOrderBody.notes body) PENDING)) ;;
  _ <- tx_for orderItems
         (fun item => tx_write (orderItem_create (Order.id newOrder) item)) ;;
  _ <- tx_write (notification_create now userId "Pedido confirmado"
                   (confirm_message (Order.id newOrder)) ORDER
                   (Some (Order.id newOrder))) ;;
  tx_ret newOrder.

(** [userId] is [req.user!.userId]; [users] is the [users] table. *)
Definition createOrder (f : Faults) (now : Z) (db : Db) (users : list User.t)
  (userId : Z) (body : CreateOrderBody.t) : Response * Db :=
  match validationResult createOrderValidation body with
  | _ :: _ => (Failure 400 INVALID_INPUT, db)
  | [] =>
      match CreateOrderBody.items body with
      | None | Some [] => (Failure 400 NO_ITEMS_IN_ORDER, db)
      | Some items =>
          match processItems db items 0%float [] with
          | PricingFailed st code => (Failure st code, db)
          | Priced orderItems subtotal =>
              if PrimFloat.ltb subtotal 2%float
              then (Failure 400 MINIMUM_ORDER_NOT_MET, db)
              else
                let deliveryFee := 1%float in
                let total := PrimFloat.add subtotal deliveryFee in
                match prisma_transaction
                        (createOrderTx now userId body subtotal deliveryFee
                           total orderItems) f db with
                | (None, db') => (Failure 500 ORDER_CREATE_ERROR, db')
                | (Some order, db') =>
                    (Success 201
                       (DataCreatedOrder
                          (option_map (createOrder_include db' users)
                             (findOrder db' (Order.id order)))), db')
                end
          end
      end
  end.

(** ** getOrderById *)

(** [id] is [parseInt(req.params.id)], [None] for [NaN]. *)
Definition getOrderById (db : Db) (users : list User.t) (userId : Z)
  (userRole : Role) (id : option Z) : Response :=
  match id with
  | None => Failure 400 INVALID_ORDER_ID
  | Some orderId =>
      let whereClause := fun o =>
        Z.eqb (Order.id o) orderId &&
        match userRole with
        | ADMIN => true
        | CLIENT => Z.eqb (Order.userId o) userId
        end in
      match find whereClause (orders db) with
      | None => Failure 404 ORDER_NOT_FOUND
      | Some order =>
          Success 200 (DataOrderDetail (getOrderById_include db users order))
      end
  end.

(** ** cancelOrder *)

Definition cancel_message (orderId : Z) : string :=
  ("Tu pedido #" ++ string_of_Z orderId ++ " ha sido cancelado exitosamente.")%string.

Definition cancelOrderTx (now orderId userId : Z) : Tx Order.t :=
  updated <- tx_write (order_update_status now orderId "CANCELLED") ;;
  _ <- tx_write (notification_create now userId "Pedido cancelado"
                   (cancel_message orderId) ORDER (Some orderId)) ;;
  tx_ret updated.

Definition cancelOrder (f : Faults) (now : Z) (db : Db) (userId : Z)
  (id : option Z) : Response * Db :=
  match id with
  | None => (Failure 400 INVALID_ORDER_ID, db)
  | Some orderId =>
      match findOrder db orderId with
      | None => (Failure 404 ORDER_NOT_FOUND, db)
      | Some order =>
          if negb (Z.eqb (Order.userId order) userId)
          then (Failure 403 ORDER_ACCESS_DENIED, db)
          else if negb (OrderStatus_eqb (Order.status order) PENDING)
          then (Failure 400 ORDER_CANNOT_BE_CANCELLED, db)
          else
            match prisma_transaction (cancelOrderTx now orderId userId) f db with
            | (None, db') => (Failure 500 ORDER_CANCEL_ERROR, db')
            | (Some updated, db') => (Success 200 (DataOrder updated), db')
            end
      end
  end.

(** ** updateOrderStatus *)

Definition validTransitions (s : OrderStatus) : list string :=
  match s with
  | PENDING => ["PREPARING"%string; "CANCELLED"%string]
  | PREPARING => ["READY"%string; "CANCELLED"%string]
  | READY => ["DELIVERED"%string; "CANCELLED"%string]
  | DELIVERED => []
  | CANCELLED => []
  end.

(** [Array.prototype.includes] on strings. *)
Definition includes (l : list string) (s : string) : bool :=
  existsb (String.eqb s) l.

Definition statusMessages (status : string) : option string :=
  (if String.eqb status "PREPARING" then Some "Tu pedido está siendo preparado"
  else if String.eqb status "READY" then Some "Tu pedido está listo para entrega"
  else if String.eqb status "DELIVERED" then Some "Tu pedido ha sido entregado"
  else if String.eqb status "CANCELLED" then Some "Tu pedido ha sido cancelado"
  else None)%string.

(** [`Pedido #${orderId}: ${statusMessages[status]}`] *)
Definition status_message (orderId : Z) (status : string) : string :=
  ("Pedido #" ++ string_of_Z orderId ++ ": " ++
   match statusMessages status with
   | Some m => m
   | None => "undefined"
   end)%string.

Definition updateOrderStatusTx (now orderId : Z) (order : Order.t)
  (status : string) : Tx Order.t :=
  updated <- tx_write (order_update_status now orderId status) ;;
  _ <- tx_write (notification_create now (Order.userId order)
                   "Estado del pedido actualizado"
                   (status_message orderId status) ORDER (Some orderId)) ;;
  tx_ret updated.

(** [status] is [req.body.status]. *)
Definition updateOrderStatus (f : Faults) (now : Z) (db : Db)
  (id : option Z) (status : string) : Response * Db :=
  match validationResult updateOrderStatusValidation status with
  | _ :: _ => (Failure 400 INVALID_INPUT, db)
  | [] =>
      match id with
      | None => (Failure 400 INVALID_ORDER_ID, db)
      | Some orderId =>
          match findOrder db orderId with
          | None => (Failure 404 ORDER_NOT_FOUND, db)
          | Some order =>
              if negb (includes (validTransitions (Order.status order)) status)
              then (Failure 400 INVALID_STATUS_TRANSITION, db)
              else
                match prisma_transaction
                        (updateOrderStatusTx now orderId order status) f db with
                | (None, db') => (Failure 500 ORDER_STATUS_UPDATE_ERROR, db')
                | (Some updated, db') => (Success 200 (DataOrder updated), db')
                end
          end
      end
  end.

(** ** The transition table and messages as the specification states them *)

(** §4.3: the legal (from, to) pairs. *)
Definition spec_transition_allowed (from to : OrderStatus) : bool :=
  match from, to with
  | PENDING, PREPARING | PENDING, CANCELLED
  | PREPARING, READY | PREPARING, CANCELLED
  | READY, DELIVERED | READY, CANCELLED => true
  | _, _ => false
  end.

(** A requested status string names a destination of the table. *)
Definition spec_in_table (from : OrderStatus) (status : string) : Prop :=
  exists to, OrderStatus_of_string status = Some to /\
             spec_transition_allowed from to = true.

(** ** Sample store for the concrete checks *)

Definition demo_db : Db :=
  mkDb [Product.mk 1 "Cafe americano" None 350 None true;
        Product.mk 2 "Empanada" (Some "De carne"%string) 100 None true;
        Product.mk 3 "Jugo de fresa" None 500 None false;
        Product.mk 4 "Pan con pollo" None 110 (Some "pan.jpg"%string) true;
        Product.mk 5 "Capuchino" None 220 None true]
       [Order.mk 1 7 PENDING "Pabellon A" CASH 700 100 800 None 0 0;
        Order.mk 2 8 READY "Biblioteca" YAPE 300 100 400 None 0 0]
       [] [] 3 1 1.

Definition demo_users : list User.t :=
  [User.mk 7 "ana@ucss.pe" "Ana" "Quispe" (Some "987654321"%string) CLIENT true true;
   User.mk 8 "jose@ucss.pe" "Jose" "Huaman" None CLIENT true true;
   User.mk 9 "luis@ucss.pe" "Luis" "Rojas" None ADMIN true true].

Definition demo_body (items : list OrderItemInput.t) : CreateOrderBody.t :=
  CreateOrderBody.mk (Some items) (Some "Pabellon A"%string) (Some "CASH"%string) None.

Definition line (pid : Z) (q : option Z) : OrderItemInput.t :=
  OrderItemInput.mk pid q None None.

Example decimal_8_2_samples :
  map decimal_8_2_of_number
    [3.5%float; 0.1%float; PrimFloat.add (decimal_to_number 110) (decimal_to_number 220);
     1.005%float; (-2.675)%float; 999999.99%float; 999999.995%float;
     1000000%float; PrimFloat.div 1%float 0%float]
  = [Some 350; Some 10; Some 330; Some 101; Some (-268); Some 99999999; None;
     None; None].
Proof. vm_compute. reflexivity. Qed.

Example demo_scenario_total :
  match createOrder no_faults 10 demo_db demo_users 7 (demo_body [line 1 (Some 2)]) with
  | (Success 201 (DataCreatedOrder (Some v)), _) =>
      (Order.subtotal (ow_order v), Order.deliveryFee (ow_order v),
       Order.total (ow_order v), Order.status (ow_order v))
  | _ => (0, 0, 0, CANCELLED)
  end = (700, 100, 800, PENDING).
Proof. vm_compute. reflexivity. Qed.

Example demo_minimum :
  fst (createOrder no_faults 10 demo_db demo_users 7 (demo_body [line 2 (Some 1)]))
  = Failure 400 MINIMUM_ORDER_NOT_MET.
Proof. vm_compute. reflexivity. Qed.

Example demo_pending_to_delivered :
  fst (updateOrderStatus no_faults 10 demo_db (Some 1) "DELIVERED")
  = Failure 400 INVALID_STATUS_TRANSITION.
Proof. vm_compute. reflexivity. Qed.

(** ** Lemmas on the enums and the transition table *)

Lemma OrderStatus_of_string_spec (s : string) (to : OrderStatus) :
  OrderStatus_of_string s = Some to <-> s = string_of_OrderStatus to.
Proof.
  unfold OrderStatus_of_string; split.
  - repeat match goal with
           | |- context [String.eqb ?a ?b] => destruct (String.eqb_spec a b)
           end; intro H; inversion H; subst; reflexivity.
  - intros ->; destruct to; reflexivity.
Qed.

Lemma string_of_OrderStatus_roundtrip (to : OrderStatus) :
  OrderStatus_of_string (string_of_OrderStatus to) = Some to.
Proof. destruct to; reflexivity. Qed.

Lemma includes_spec (l : list string) (s : string) :
  includes l s = true <-> In s l.
Proof.
  unfold includes; rewrite existsb_exists; split.
  - intros [x [Hx Heq]]; apply String.eqb_eq in Heq; subst; exact Hx.
  - intros H; exists s; split; [exact H | apply String.eqb_refl].
Qed.

(** The source's [validTransitions] table is the table of §4.3. *)
Lemma validTransitions_spec (from : OrderStatus) (s : string) :
  includes (validTransitions from) s = true <-> spec_in_table from s.
Proof.
  rewrite includes_spec; unfold spec_in_table; split.
  - intros Hin.
    destruct from; simpl in Hin;
      repeat match goal with
             | H : _ \/ _ |- _ => destruct H as [H | H]
             | H : False |- _ => destruct H
             end; subst;
      match goal with
      | |- exists to, OrderStatus_of_string ?s = Some to /\ _ =>
          eexists; split; [reflexivity | reflexivity]
      end.
  - intros [to [Hs Hallowed]]; apply OrderStatus_of_string_spec in Hs; subst.
    destruct from, to; simpl in *; try discriminate; auto.
Qed.

Lemma statusMessages_destinations (from to : OrderStatus) :
  spec_transition_allowed from to = true ->
  statusMessages (string_of_OrderStatus to) <> None.
Proof. destruct from, to; simpl; discriminate. Qed.

(** The updated orders table: [tx.order.update] on the row [oid]. *)
Definition orders_with_status (now oid : Z) (to : OrderStatus)
  (l : list Order.t) : list Order.t :=
  map (fun o' => if Z.eqb (Order.id o') oid then set_status now to o' else o') l.

(** Run of the two writes [order.update] then [notification.create]. *)
Lemma update_then_notify_run (f : Faults) (now oid uid : Z) (o : Order.t)
  (status title msg : string) (to : OrderStatus) (db : Db) :
  findOrder db oid = Some o ->
  OrderStatus_of_string status = Some to ->
  prisma_transaction
    (updated <- tx_write (order_update_status now oid status) ;;
     _ <- tx_write (notification_create now uid title msg ORDER (Some oid)) ;;
     tx_ret updated) f db =
  if f O then (None, db)
  else if f 1%nat then (None, db)
  else (Some (set_status now to o),
        mkDb (products db) (orders_with_status now oid to (orders db))
             (orderItems db)
             (notifications db ++
                [Notification.mk (nextNotificationId db) uid title msg ORDER
                   false (Some oid) now])
             (nextOrderId db) (nextOrderItemId db) (nextNotificationId db + 1)).
Proof.
  intros Hfind Hst.
  unfold prisma_transaction, tx_bind, tx_write, tx_ret.
  destruct (f O); [reflexivity |].
  unfold order_update_status; rewrite Hst, Hfind; simpl.
  destruct (f 1%nat); reflexivity.
Qed.

(** ** C1: the admin status transition *)

(** Claim C1.  For an existing order [o] and any requested status string,
    [updateOrderStatus] succeeds exactly when (status of [o], requested
    status) is a pair of the §4.3 table and the store accepts both writes;
    outside the table it answers [INVALID_STATUS_TRANSITION] and leaves the
    store unchanged; every failure leaves the store unchanged; a success
    sets the order's status to the destination and appends exactly one
    notification, to the order's owner, for that order, whose message is
    the entry of [statusMessages] for the destination state. *)
Theorem updateOrderStatus_transition_table :
  forall (f : Faults) (now : Z) (db : Db) (oid : Z) (o : Order.t)
         (status : string) (r : Response) (db' : Db),
    findOrder db oid = Some o ->
    updateOrderStatus f now db (Some oid) status = (r, db') ->
    (is_success r = true <->
       spec_in_table (Order.status o) status /\ f O = false /\ f 1%nat = false) /\
    (~ spec_in_table (Order.status o) status ->
       r = Failure 400 INVALID_STATUS_TRANSITION /\ db' = db) /\
    (is_success r = false -> db' = db) /\
    (is_success r = true ->
       exists to,
         status = string_of_OrderStatus to /\
         spec_transition_allowed (Order.status o) to = true /\
         statusMessages (string_of_OrderStatus to) <> None /\
         orders db' = orders_with_status now oid to (orders db) /\
         orderItems db' = orderItems db /\
         notifications db' =
           notifications db ++
             [Notification.mk (nextNotificationId db) (Order.userId o)
                "Estado del pedido actualizado"
                (status_message oid (string_of_OrderStatus to)) ORDER false
                (Some oid) now]).
Proof.
  intros f now db oid o status r db' Hfind Hrun.
  unfold updateOrderStatus in Hrun; simpl in Hrun; rewrite Hfind in Hrun.
  destruct (includes (validTransitions (Order.status o)) status) eqn:Hinc.
  - pose proof (proj1 (validTransitions_spec _ _) Hinc) as Hin.
    destruct Hin as [to [Hto Hallowed]].
    simpl in Hrun; unfold updateOrderStatusTx in Hrun.
    rewrite (update_then_notify_run f now oid (Order.userId o) o status
               "Estado del pedido actualizado" (status_message oid status) to db
               Hfind Hto) in Hrun.
    assert (Hin : spec_in_table (Order.status o) status)
      by (exists to; split; assumption).
    apply OrderStatus_of_string_spec in Hto.
    destruct (f O) eqn:F0; [| destruct (f 1%nat) eqn:F1];
      inversion Hrun; subst; clear Hrun;
      (split; [| split; [| split]]; simpl;
       [ split; intros H; [try discriminate | try (destruct H as [_ [H1 H2]]; discriminate); try reflexivity]
       | intros H; exfalso; exact (H Hin)
       | intros H; try discriminate; reflexivity
       | intros H; try discriminate ]).
    + repeat split; assumption.
    + exists to; repeat split; try reflexivity; try exact Hallowed.
      apply (statusMessages_destinations (Order.status o)); exact Hallowed.
  - inversion Hrun; subst; clear Hrun.
    assert (Hnot : ~ spec_in_table (Order.status o) status).
    { intro H; apply validTransitions_spec in H; congruence. }
    split; [| split; [| split]]; simpl.
    + split; [discriminate | intro H; exfalso; exact (Hnot (proj1 H))].
    + intros _; split; reflexivity.
    + intros _; reflexivity.
    + discriminate.
Qed.

Lemma updateOrderStatus_transition_table_witness :
  exists o r db',
    findOrder demo_db 2 = Some o /\
    updateOrderStatus no_faults 10 demo_db (Some 2) "DELIVERED" = (r, db') /\
    is_success r = true.
Proof.
  eexists; eexists; eexists.
  split; [vm_compute; reflexivity |].
  split; [vm_compute; reflexivity |].
  refine (proj2 (proj1 (updateOrderStatus_transition_table no_faults 10
            demo_db 2 _ "DELIVERED" _ _ _ _)) _).
  - vm_compute; reflexivity.
  - vm_compute; reflexivity.
  - split; [| split; reflexivity].
    exists DELIVERED; split; reflexivity.
Defined.

(** ** C5: user-initiated cancellation *)

(** Claim C5.  For an existing order [o], [cancelOrder] by caller [uid]
    succeeds exactly when [uid] owns [o], [o] is [PENDING] (and the store
    accepts both writes), and then the order's status becomes [CANCELLED];
    a caller who does not own [o] gets [ORDER_ACCESS_DENIED] whatever the
    status; the owner of a non-[PENDING] order gets
    [ORDER_CANNOT_BE_CANCELLED]; failures leave the store unchanged. *)
Theorem cancelOrder_owner_and_pending :
  forall (f : Faults) (now : Z) (db : Db) (uid oid : Z) (o : Order.t)
         (r : Response) (db' : Db),
    findOrder db oid = Some o ->
    cancelOrder f now db uid (Some oid) = (r, db') ->
    (is_success r = true <->
       Order.userId o = uid /\ Order.status o = PENDING /\
       f O = false /\ f 1%nat = false) /\
    (Order.userId o <> uid ->
       r = Failure 403 ORDER_ACCESS_DENIED /\ db' = db) /\
    (Order.userId o = uid -> Order.status o <> PENDING ->
       r = Failure 400 ORDER_CANNOT_BE_CANCELLED /\ db' = db) /\
    (is_success r = false -> db' = db) /\
    (is_success r = true ->
       orders db' = orders_with_status now oid CANCELLED (orders db) /\
       exists updated, r = Success 200 (DataOrder updated) /\
                       Order.status updated = CANCELLED).
Proof.
  intros f now db uid oid o r db' Hfind Hrun.
  unfold cancelOrder in Hrun; rewrite Hfind in Hrun.
  destruct (Z.eqb_spec (Order.userId o) uid) as [Hown | Hown]; simpl in Hrun.
  - destruct (Order.status o) eqn:Hst; simpl in Hrun;
      try (inversion Hrun; subst; clear Hrun;
           split; [| split; [| split; [| split]]]; simpl;
           [ split; [discriminate | intros [_ [H _]]; discriminate]
           | intros H; contradiction
           | intros _ _; split; reflexivity
           | intros _; reflexivity
           | discriminate ]).
    unfold cancelOrderTx in Hrun.
    rewrite (update_then_notify_run f now oid uid o "CANCELLED"
               "Pedido cancelado" (cancel_message oid) CANCELLED db
               Hfind eq_refl) in Hrun.
    destruct (f O) eqn:F0; [| destruct (f 1%nat) eqn:F1];
      inversion Hrun; subst; clear Hrun;
      (split; [| split; [| split; [| split]]]); simpl;
      try (intros H; contradiction);
      try (intros _ H; exfalso; apply H; reflexivity);
      try (intros H; try discriminate; reflexivity).
    + split; [discriminate | intros [_ [_ [H _]]]; discriminate].
    + split; [discriminate | intros [_ [_ [_ H]]]; discriminate].
    + split; [intros _; repeat split; assumption | reflexivity].
    + intros _; split; [reflexivity |].
      eexists; split; reflexivity.
  - inversion Hrun; subst; clear Hrun.
    split; [| split; [| split; [| split]]]; simpl.
    + split; [discriminate | intros [H _]; contradiction].
    + intros _; split; reflexivity.
    + intros H; contradiction.
    + intros _; reflexivity.
    + discriminate.
Qed.

Lemma cancelOrder_owner_and_pending_witness :
  exists o r db',
    findOrder demo_db 1 = Some o /\
    cancelOrder no_faults 10 demo_db 7 (Some 1) = (r, db') /\
    is_success r = true.
Proof.
  eexists; eexists; eexists.
  split; [vm_compute; reflexivity |].
  split; [vm_compute; reflexivity |].
  refine (proj2 (proj1 (cancelOrder_owner_and_pending no_faults 10
            demo_db 7 1 _ _ _ _ _)) _).
  - vm_compute; reflexivity.
  - vm_compute; reflexivity.
  - repeat split.
Defined.

(** ** The pricing loop *)

Section Pricing.
Variable db : Db.

(** An input line whose product exists and is available. *)
Definition line_ok (item : OrderItemInput.t) : Prop :=
  exists p, findProduct db (OrderItemInput.productId item) = Some p /\
            Product.isAvailable p = true.

(** The processed line the loop pushes for [item]. *)
Definition line_of (item : OrderItemInput.t) (l : ProcessedOrderItem.t) : Prop :=
  exists p,
    findProduct db (OrderItemInput.productId item) = Some p /\
    Product.isAvailable p = true /\
    l = ProcessedOrderItem.mk (OrderItemInput.productId item)
          (quantity_or_default (OrderItemInput.quantity item))
          (decimal_to_number (Product.price p))
          (OrderItemInput.customizations item)
          (string_or_null (OrderItemInput.specialNotes item))
          (PrimFloat.mul (decimal_to_number (Product.price p))
             (z_to_number (quantity_or_default (OrderItemInput.quantity item)))).

Definition sum_subtotals (s : float) (lines : list ProcessedOrderItem.t) : float :=
  fold_left (fun a l => PrimFloat.add a (ProcessedOrderItem.subtotal l)) lines s.

Lemma processItems_priced_inv :
  forall items s acc out s',
    processItems db items s acc = Priced out s' ->
    exists lines, out = acc ++ lines /\ Forall2 line_of items lines /\
                  s' = sum_subtotals s lines.
Proof.
  induction items as [| item rest IH]; intros s acc out s' H; simpl in H.
  - inversion H; subst. exists []. rewrite app_nil_r. split; [reflexivity | split; [constructor | reflexivity]].
  - destruct (findProduct db (OrderItemInput.productId item)) as [p |] eqn:Hp;
      [| discriminate].
    destruct (Product.isAvailable p) eqn:Ha; simpl in H; [| discriminate].
    apply IH in H. destruct H as [lines [Hout [Hrel Hs]]].
    eexists (_ :: lines). split; [| split].
    + rewrite Hout, <- app_assoc. reflexivity.
    + constructor; [| exact Hrel]. exists p. repeat split; assumption.
    + exact Hs.
Qed.

Lemma processItems_all_ok :
  forall items s acc,
    Forall line_ok items ->
    exists out s', processItems db items s acc = Priced out s'.
Proof.
  induction items as [| item rest IH]; intros s acc Hok; simpl.
  - eauto.
  - inversion Hok as [| ? ? [p [Hp Ha]] Hrest]; subst.
    rewrite Hp, Ha. simpl. apply IH. exact Hrest.
Qed.

(** Lines that pass only advance the loop. *)
Lemma processItems_prefix :
  forall pre s acc,
    Forall line_ok pre ->
    exists s' acc', forall rest,
      processItems db (pre ++ rest) s acc = processItems db rest s' acc'.
Proof.
  induction pre as [| item pre IH]; intros s acc Hok; simpl.
  - eauto.
  - inversion Hok as [| ? ? [p [Hp Ha]] Hrest]; subst.
    rewrite Hp, Ha. simpl. apply IH. exact Hrest.
Qed.

(** §4.1's accumulated subtotal: Σ unitPrice × quantity over the lines in
    input order, from [0], in the program's number arithmetic. *)
Definition requested_subtotal (items : list OrderItemInput.t) : float :=
  fold_left
    (fun acc item =>
       match findProduct db (OrderItemInput.productId item) with
       | Some p =>
           PrimFloat.add acc
             (PrimFloat.mul (decimal_to_number (Product.price p))
                (z_to_number (quantity_or_default (OrderItemInput.quantity item))))
       | None => acc
       end) items 0%float.

Lemma sum_subtotals_requested :
  forall items lines s,
    Forall2 line_of items lines ->
    sum_subtotals s lines =
    fold_left
      (fun acc item =>
         match findProduct db (OrderItemInput.productId item) with
         | Some p =>
             PrimFloat.add acc
               (PrimFloat.mul (decimal_to_number (Product.price p))
                  (z_to_number (quantity_or_default (OrderItemInput.quantity item))))
         | None => acc
         end) items s.
Proof.
  intros items lines s H; revert s.
  induction H as [| item l items lines [p [Hp [Ha ->]]] Hrel IH]; intro s;
    simpl; [reflexivity |].
  rewrite Hp. apply IH.
Qed.
End Pricing.

(** ** Runs of the creation transaction *)

(** The rows the [orderItem.create] loop inserts, from id [firstId], or
    [None] when one of them is refused. *)
Fixpoint created_items (firstId orderId : Z) (lines : list ProcessedOrderItem.t)
  : option (list OrderItem.t) :=
  match lines with
  | [] => Some []
  | l :: ls =>
      match orderItem_row firstId orderId l with
      | None => None
      | Some i => option_map (cons i) (created_items (firstId + 1) orderId ls)
      end
  end.

Lemma tx_for_orderItems_run (f : Faults) (orderId : Z)
  (lines : list ProcessedOrderItem.t) :
  forall k db,
    tx_for lines (fun item => tx_write (orderItem_create orderId item)) f k db =
    if existsb f (seq k (List.length lines)) then None
    else match created_items (nextOrderItemId db) orderId lines with
         | None => None
         | Some new_items =>
             Some (tt, (k + List.length lines)%nat,
                   mkDb (products db) (orders db) (orderItems db ++ new_items)
                     (notifications db) (nextOrderId db)
                     (nextOrderItemId db + Z.of_nat (List.length lines))
                     (nextNotificationId db))
         end.
Proof.
  induction lines as [| l ls IH]; intros k db; simpl.
  - unfold tx_ret. rewrite app_nil_r, Nat.add_0_r, Z.add_0_r.
    destruct db; reflexivity.
  - unfold tx_bind at 1, tx_write at 1.
    destruct (f k) eqn:Fk; simpl; [reflexivity |].
    unfold orderItem_create.
    destruct (orderItem_row (nextOrderItemId db) orderId l) as [i |];
      [| destruct (existsb f (seq (S k) (List.length ls))); reflexivity].
    rewrite IH; simpl.
    destruct (existsb f (seq (S k) (List.length ls))); [reflexivity |].
    destruct (created_items (nextOrderItemId db + 1) orderId ls) as [new |];
      simpl; [| reflexivity].
    rewrite <- app_assoc; simpl.
    rewrite Nat.add_succ_r.
    replace (nextOrderItemId db + 1 + Z.of_nat (List.length ls))
      with (nextOrderItemId db + Z.pos (Pos.of_succ_nat (List.length ls))) by lia.
    reflexivity.
Qed.

Definition confirm_notification (now userId orderId notifId : Z)
  : Notification.t :=
  Notification.mk notifId userId "Pedido confirmado" (confirm_message orderId)
    ORDER false (Some orderId) now.

Definition order_data (uid : Z) (body : CreateOrderBody.t)
  (subtotal deliveryFee total : float) : OrderCreateData :=
  mkOrderCreateData uid (CreateOrderBody.deliveryLocation body)
    (CreateOrderBody.paymentMethod body) subtotal deliveryFee total
    (CreateOrderBody.notes body) PENDING.

Lemma seq_0_add_2 (n : nat) :
  seq 0 (n + 2) = 0%nat :: seq 1 n ++ [S n].
Proof.
  replace (n + 2)%nat with (S (S n)) by lia.
  change (seq 0 (S (S n))) with (0%nat :: seq 1 (S n)).
  rewrite seq_S. reflexivity.
Qed.

Lemma createOrderTx_run (f : Faults) (now uid : Z) (body : CreateOrderBody.t)
  (sub fee tot : float) (lines : list ProcessedOrderItem.t) (db : Db) :
  prisma_transaction (createOrderTx now uid body sub fee tot lines) f db =
  match order_create now (order_data uid body sub fee tot) db with
  | None => (None, db)
  | Some (o, db1) =>
      if existsb f (seq 0 (List.length lines + 2)) then (None, db)
      else match created_items (nextOrderItemId db1) (Order.id o) lines with
           | None => (None, db)
           | Some new_items =>
               (Some o,
                mkDb (products db1) (orders db1) (orderItems db1 ++ new_items)
                  (notifications db1 ++
                     [confirm_notification now uid (Order.id o)
                        (nextNotificationId db1)])
                  (nextOrderId db1)
                  (nextOrderItemId db1 + Z.of_nat (List.length lines))
                  (nextNotificationId db1 + 1))
           end
  end.
Proof.
  rewrite seq_0_add_2; simpl.
  unfold prisma_transaction, createOrderTx, tx_bind at 1, tx_write at 1.
  fold (order_data uid body sub fee tot).
  destruct (f O) eqn:F0;
    destruct (order_create now (order_data uid body sub fee tot) db)
      as [[o db1] |]; try reflexivity.
  unfold tx_bind at 1.
  rewrite tx_for_orderItems_run.
  rewrite existsb_app.
  destruct (existsb f (seq 1 (List.length lines))) eqn:Fmid; simpl;
    [reflexivity |].
  destruct (created_items (nextOrderItemId db1) (Order.id o) lines);
    [| destruct (f (S (List.length lines))); reflexivity].
  unfold tx_bind, tx_write, tx_ret.
  replace (1 + List.length lines)%nat with (S (List.length lines)) by lia.
  destruct (f (S (List.length lines))); reflexivity.
Qed.

Lemma decimal_8_2_of_one : decimal_8_2_of_number 1%float = Some 100.
Proof. vm_compute. reflexivity. Qed.

Lemma order_create_some (now : Z) (d : OrderCreateData) (db : Db)
  (o : Order.t) (db1 : Db) :
  order_create now d db = Some (o, db1) ->
  exists loc s pm sub fee tot,
    ocd_deliveryLocation d = Some loc /\ ocd_paymentMethod d = Some s /\
    PaymentMethod_of_string s = Some pm /\
    decimal_8_2_of_number (ocd_subtotal d) = Some sub /\
    decimal_8_2_of_number (ocd_deliveryFee d) = Some fee /\
    decimal_8_2_of_number (ocd_total d) = Some tot /\
    o = Order.mk (nextOrderId db) (ocd_userId d) (ocd_status d) loc pm
          sub fee tot (ocd_notes d) now now /\
    db1 = mkDb (products db) (orders db ++ [o]) (orderItems db)
            (notifications db) (nextOrderId db + 1) (nextOrderItemId db)
            (nextNotificationId db).
Proof.
  unfold order_create.
  destruct (ocd_deliveryLocation d) as [loc |]; [| discriminate].
  destruct (ocd_paymentMethod d) as [s |]; [| discriminate].
  destruct (PaymentMethod_of_string s) as [pm |] eqn:Hpm; [| discriminate].
  destruct (decimal_8_2_of_number (ocd_subtotal d)) as [sub |] eqn:Hsub;
    [| discriminate].
  destruct (decimal_8_2_of_number (ocd_deliveryFee d)) as [fee |] eqn:Hfee;
    [| discriminate].
  destruct (decimal_8_2_of_number (ocd_total d)) as [tot |] eqn:Htot;
    [| discriminate].
  intro H; inversion H; subst.
  exists loc, s, pm, sub, fee, tot; repeat split; assumption.
Qed.

(** A failed [createOrder] leaves the store as it was. *)
Lemma createOrder_failure_store (f : Faults) (now : Z) (db : Db)
  (users : list User.t) (uid : Z) (body : CreateOrderBody.t) (r : Response)
  (db' : Db) :
  createOrder f now db users uid body = (r, db') ->
  is_success r = false -> db' = db.
Proof.
  unfold createOrder; simpl.
  destruct (CreateOrderBody.items body) as [[| item items] |];
    try (intros H _; inversion H; reflexivity).
  destruct (processItems db (item :: items) 0%float []) as [lines sub | st c];
    [| intros H _; inversion H; reflexivity].
  destruct (PrimFloat.ltb sub 2%float); [intros H _; inversion H; reflexivity |].
  rewrite createOrderTx_run.
  destruct (order_create _ _ db) as [[o db1] |];
    [destruct (existsb f _); [| destruct (created_items _ _ lines)] |];
    intros H; inversion H; subst; simpl;
    first [reflexivity | discriminate].
Qed.

(** Everything a successful [createOrder] did. *)
Lemma createOrder_success_inv (f : Faults) (now : Z) (db : Db)
  (users : list User.t) (uid : Z) (body : CreateOrderBody.t) (r : Response)
  (db' : Db) :
  createOrder f now db users uid body = (r, db') ->
  is_success r = true ->
  exists items lines loc s pm sc tc new_items,
    CreateOrderBody.items body = Some items /\ items <> [] /\
    Forall2 (line_of db) items lines /\
    PrimFloat.ltb (sum_subtotals 0%float lines) 2%float = false /\
    CreateOrderBody.deliveryLocation body = Some loc /\
    CreateOrderBody.paymentMethod body = Some s /\
    PaymentMethod_of_string s = Some pm /\
    decimal_8_2_of_number (sum_subtotals 0%float lines) = Some sc /\
    decimal_8_2_of_number (PrimFloat.add (sum_subtotals 0%float lines) 1%float)
      = Some tc /\
    created_items (nextOrderItemId db) (nextOrderId db) lines = Some new_items /\
    existsb f (seq 0 (List.length lines + 2)) = false /\
    let o := Order.mk (nextOrderId db) uid PENDING loc pm sc 100 tc
               (CreateOrderBody.notes body) now now in
    db' = mkDb (products db) (orders db ++ [o]) (orderItems db ++ new_items)
            (notifications db ++
               [confirm_notification now uid (Order.id o)
                  (nextNotificationId db)])
            (nextOrderId db + 1)
            (nextOrderItemId db + Z.of_nat (List.length lines))
            (nextNotificationId db + 1) /\
    r = Success 201 (DataCreatedOrder (option_map (createOrder_include db' users)
                                         (findOrder db' (Order.id o)))).
Proof.
  unfold createOrder; simpl.
  destruct (CreateOrderBody.items body) as [[| item items] |] eqn:Hitems;
    try (intros H Hs; inversion H; subst; discriminate).
  destruct (processItems db (item :: items) 0%float []) as [out sub | st c]
    eqn:Hproc; [| intros H Hs; inversion H; subst; discriminate].
  destruct (PrimFloat.ltb sub 2%float) eqn:Hlt;
    [intros H Hs; inversion H; subst; discriminate |].
  rewrite createOrderTx_run.
  destruct (order_create _ _ db) as [[o db1] |] eqn:Hoc;
    [| intros H Hs; inversion H; subst; discriminate].
  destruct (existsb f _) eqn:Hf; [intros H Hs; inversion H; subst; discriminate |].
  apply order_create_some in Hoc.
  destruct Hoc as (loc & s & pm & sc & fee & tc & Hloc & Hs & Hpm & Hsc & Hfee
                   & Htc & Ho & Hdb1).
  simpl in Hloc, Hs, Hsc, Hfee, Htc, Ho; subst o db1.
  rewrite decimal_8_2_of_one in Hfee; injection Hfee as <-.
  simpl.
  destruct (created_items (nextOrderItemId db) (nextOrderId db) out)
    as [new_items |] eqn:Hnew;
    [| intros H Hs'; inversion H; subst; discriminate].
  intros H _.
  apply processItems_priced_inv in Hproc.
  destruct Hproc as [lines [Hout [Hrel Hsub]]]; simpl in Hout; subst out sub.
  exists (item :: items), lines, loc, s, pm, sc, tc, new_items.
  repeat split; try assumption; try discriminate.
  inversion H; subst; reflexivity.
  inversion H; subst; reflexivity.
Qed.

(** An [OrderItem] row persisted for the input line [item] of order [oid]:
    the quantity the loop computed, and the unit price and subtotal it
    computed, rounded to cents by the column. *)
Definition persisted_line (db : Db) (oid : Z) (item : OrderItemInput.t)
  (i : OrderItem.t) : Prop :=
  exists p,
    findProduct db (OrderItemInput.productId item) = Some p /\
    Product.isAvailable p = true /\
    OrderItem.orderId i = oid /\
    OrderItem.productId i = OrderItemInput.productId item /\
    OrderItem.quantity i = quantity_or_default (OrderItemInput.quantity item) /\
    int4_ok (OrderItem.quantity i) = true /\
    decimal_8_2_of_number (decimal_to_number (Product.price p))
      = Some (OrderItem.unitPrice i) /\
    decimal_8_2_of_number
      (PrimFloat.mul (decimal_to_number (Product.price p))
         (z_to_number (OrderItem.quantity i)))
      = Some (OrderItem.subtotal i).

Lemma orderItem_row_some (id oid : Z) (l : ProcessedOrderItem.t) (i : OrderItem.t) :
  orderItem_row id oid l = Some i ->
  int4_ok (ProcessedOrderItem.quantity l) = true /\
  decimal_8_2_of_number (ProcessedOrderItem.unitPrice l) = Some (OrderItem.unitPrice i) /\
  decimal_8_2_of_number (ProcessedOrderItem.subtotal l) = Some (OrderItem.subtotal i) /\
  i = OrderItem.mk id oid (ProcessedOrderItem.productId l)
        (ProcessedOrderItem.quantity l) (OrderItem.unitPrice i)
        (ProcessedOrderItem.customizations l) (ProcessedOrderItem.specialNotes l)
        (OrderItem.subtotal i).
Proof.
  unfold orderItem_row.
  destruct (int4_ok (ProcessedOrderItem.quantity l)) eqn:Hq; [| discriminate].
  destruct (decimal_8_2_of_number (ProcessedOrderItem.unitPrice l)) as [u |];
    [| discriminate].
  destruct (decimal_8_2_of_number (ProcessedOrderItem.subtotal l)) as [s |];
    [| discriminate].
  intro H; injection H as <-; simpl; repeat split; reflexivity.
Qed.

Lemma created_items_cons (firstId oid : Z) (l : ProcessedOrderItem.t)
  (ls : list ProcessedOrderItem.t) (new_items : list OrderItem.t) :
  created_items firstId oid (l :: ls) = Some new_items ->
  exists i rest,
    orderItem_row firstId oid l = Some i /\
    created_items (firstId + 1) oid ls = Some rest /\ new_items = i :: rest.
Proof.
  simpl; destruct (orderItem_row firstId oid l) as [i |]; [| discriminate].
  destruct (created_items (firstId + 1) oid ls) as [rest |]; [| discriminate].
  intro H; injection H as <-; exists i, rest; auto.
Qed.

Lemma created_items_persisted (db : Db) (oid : Z) :
  forall items lines, Forall2 (line_of db) items lines ->
  forall firstId new_items,
    created_items firstId oid lines = Some new_items ->
    Forall2 (persisted_line db oid) items new_items.
Proof.
  intros items lines H.
  induction H as [| item l items lines [p [Hp [Ha ->]]] Hrel IH];
    intros firstId new_items Hc.
  - injection Hc as <-; constructor.
  - apply created_items_cons in Hc as (i & rest & Hrow & Hrest & ->).
    constructor; [| exact (IH _ _ Hrest)].
    apply orderItem_row_some in Hrow as (Hq & Hu & Hs & Hi).
    rewrite Hi; simpl in *.
    exists p; repeat split; assumption.
Qed.

Lemma created_items_orderId (oid : Z) :
  forall lines firstId new_items,
    created_items firstId oid lines = Some new_items ->
    Forall (fun i => OrderItem.orderId i = oid) new_items.
Proof.
  induction lines as [| l ls IH]; intros firstId new_items Hc.
  - injection Hc as <-; constructor.
  - apply created_items_cons in Hc as (i & rest & Hrow & Hrest & ->).
    apply orderItem_row_some in Hrow as (_ & _ & _ & ->).
    constructor; [reflexivity | exact (IH _ _ Hrest)].
Qed.

Lemma created_items_length (oid : Z) :
  forall lines firstId new_items,
    created_items firstId oid lines = Some new_items ->
    List.length new_items = List.length lines.
Proof.
  induction lines as [| l ls IH]; intros firstId new_items Hc.
  - injection Hc as <-; reflexivity.
  - apply created_items_cons in Hc as (i & rest & _ & Hrest & ->).
    simpl; rewrite (IH _ _ Hrest); reflexivity.
Qed.






(** ** C2: pricing of a successful order *)








Lemma existsb_seq_false (f : Faults) (n k : nat) :
  existsb f (seq 0 n) = false -> (k < n)%nat -> f k = false.
Proof.
  intros H Hk. destruct (f k) eqn:Fk; [| reflexivity].
  assert (existsb f (seq 0 n) = true) as Ht.
  { apply existsb_exists. exists k. split; [apply in_seq; lia | exact Fk]. }
  congruence.
Qed.

(** ** C3: order creation is all-or-nothing *)

(** Claim C3.  Whatever writes the store rejects, [createOrder] either
    fails and leaves the store exactly as it was, or succeeds having added
    exactly one [PENDING] order, one item row per requested line, all
    belonging to that order, and one "Pedido confirmado" notification to the
    caller referencing that order; if any of the order, item or
    notification writes is rejected, the request fails and nothing of it is
    visible. *)
Theorem createOrder_atomic :
  forall (f : Faults) (now : Z) (db : Db) (users : list User.t) (uid : Z)
         (body : CreateOrderBody.t) (r : Response) (db' : Db),
    createOrder f now db users uid body = (r, db') ->
    (is_success r = false -> db' = db) /\
    (forall items,
       CreateOrderBody.items body = Some items ->
       (exists k, (k < List.length items + 2)%nat /\ f k = true) ->
       is_success r = false /\ db' = db) /\
    (is_success r = true ->
       exists items o new_items n,
         CreateOrderBody.items body = Some items /\
         orders db' = orders db ++ [o] /\ Order.status o = PENDING /\
         orderItems db' = orderItems db ++ new_items /\
         List.length new_items = List.length items /\
         Forall (fun i => OrderItem.orderId i = Order.id o) new_items /\
         notifications db' = notifications db ++ [n] /\
         Notification.userId n = uid /\
         Notification.title n = "Pedido confirmado"%string /\
         Notification.orderId n = Some (Order.id o) /\
         products db' = products db).
Proof.
  intros f now db users uid body r db' Hrun.
  split; [| split].
  - apply (createOrder_failure_store f now db users uid body r db' Hrun).
  - intros items Hitems [k [Hk Fk]].
    destruct (is_success r) eqn:Hs.
    + exfalso.
      destruct (createOrder_success_inv _ _ _ _ _ _ _ _ Hrun Hs)
        as (items' & lines & loc & s & pm & sc & tc & new_items & Hi' & _ & Hrel
            & _ & _ & _ & _ & _ & _ & _ & Hf & _).
      rewrite Hitems in Hi'; injection Hi' as Heq; subst items'.
      pose proof (Forall2_length Hrel) as Hlen.
      assert (f k = false) by (apply (existsb_seq_false f _ k Hf); lia).
      congruence.
    + split; [reflexivity |].
      apply (createOrder_failure_store f now db users uid body r db' Hrun Hs).
  - intros Hs.
    destruct (createOrder_success_inv _ _ _ _ _ _ _ _ Hrun Hs)
      as (items & lines & loc & s & pm & sc & tc & new_items & Hi & _ & Hrel
          & _ & _ & _ & _ & _ & _ & Hnew & _ & Hdb & _).
    do 4 eexists. split; [exact Hi |].
    rewrite Hdb; simpl.
    split; [reflexivity |]. split; [reflexivity |]. split; [reflexivity |].
    split; [rewrite (created_items_length _ _ _ _ Hnew);
            symmetry; exact (Forall2_length Hrel) |].
    split; [exact (created_items_orderId _ _ _ _ Hnew) |].
    split; [reflexivity |].
    repeat split; reflexivity.
Qed.

Lemma createOrder_atomic_witness :
  exists r db',
    createOrder (fun k => Nat.eqb k 1) 10 demo_db demo_users 7
      (demo_body [line 1 (Some 2)]) = (r, db') /\
    is_success r = false /\ db' = demo_db.
Proof.
  destruct (createOrder (fun k => Nat.eqb k 1) 10 demo_db demo_users 7
              (demo_body [line 1 (Some 2)])) as [r db'] eqn:Hrun.
  exists r, db'; split; [reflexivity |].
  refine (proj1 (proj2 (createOrder_atomic _ 10 demo_db demo_users 7 _ r db' Hrun))
            [line 1 (Some 2)] eq_refl _).
  exists 1%nat; split; [simpl; lia | reflexivity].
Defined.

(** ** C4: business-rule violations *)

(** Claim C4.  Whatever writes the store would reject, [createOrder]
    answers [NO_ITEMS_IN_ORDER] for a missing or empty line list; for the
    first line (in input order) whose product does not exist,
    [PRODUCT_NOT_FOUND], or whose product is unavailable,
    [PRODUCT_NOT_AVAILABLE], whatever the lines after it; and
    [MINIMUM_ORDER_NOT_MET] when every line is valid but the accumulated
    subtotal is below 2.00; in each case the store is left unchanged and the
    answer does not depend on the store accepting writes, because no write
    is issued. *)
Theorem createOrder_business_rule_errors :
  forall (f : Faults) (now : Z) (db : Db) (users : list User.t) (uid : Z)
         (body : CreateOrderBody.t),
    ((CreateOrderBody.items body = None \/ CreateOrderBody.items body = Some []) ->
       createOrder f now db users uid body = (Failure 400 NO_ITEMS_IN_ORDER, db)) /\
    (forall pre item post,
       CreateOrderBody.items body = Some (pre ++ item :: post) ->
       Forall (line_ok db) pre ->
       findProduct db (OrderItemInput.productId item) = None ->
       createOrder f now db users uid body = (Failure 404 PRODUCT_NOT_FOUND, db)) /\
    (forall pre item post p,
       CreateOrderBody.items body = Some (pre ++ item :: post) ->
       Forall (line_ok db) pre ->
       findProduct db (OrderItemInput.productId item) = Some p ->
       Product.isAvailable p = false ->
       createOrder f now db users uid body = (Failure 400 PRODUCT_NOT_AVAILABLE, db)) /\
    (forall items,
       CreateOrderBody.items body = Some items -> items <> [] ->
       Forall (line_ok db) items ->
       PrimFloat.ltb (requested_subtotal db items) 2%float = true ->
       createOrder f now db users uid body = (Failure 400 MINIMUM_ORDER_NOT_MET, db)).
Proof.
  intros f now db users uid body.
  split; [| split; [| split]].
  - intros [H | H]; unfold createOrder; simpl; rewrite H; reflexivity.
  - intros pre item post Hitems Hok Hnf.
    unfold createOrder; simpl; rewrite Hitems.
    destruct (processItems_prefix db pre 0%float [] Hok) as [s' [acc' Hpre]].
    destruct (pre ++ item :: post) as [| x xs] eqn:E;
      [destruct pre; discriminate |].
    rewrite <- E, Hpre; simpl; rewrite Hnf; reflexivity.
  - intros pre item post p Hitems Hok Hp Hna.
    unfold createOrder; simpl; rewrite Hitems.
    destruct (processItems_prefix db pre 0%float [] Hok) as [s' [acc' Hpre]].
    destruct (pre ++ item :: post) as [| x xs] eqn:E;
      [destruct pre; discriminate |].
    rewrite <- E, Hpre; simpl; rewrite Hp, Hna; reflexivity.
  - intros items Hitems Hne Hok Hmin.
    unfold createOrder; simpl; rewrite Hitems.
    destruct (processItems_all_ok db items 0%float [] Hok) as [out [s' Hp]].
    pose proof Hp as Hp'; apply processItems_priced_inv in Hp'.
    destruct Hp' as [lines [Hout [Hrel Hs]]]; simpl in Hout; subst.
    unfold requested_subtotal in Hmin.
    rewrite <- (sum_subtotals_requested db items lines 0%float Hrel) in Hmin.
    destruct items as [| it rest]; [contradiction |].
    rewrite Hp, Hmin; reflexivity.
Qed.

Lemma createOrder_business_rule_errors_witness :
  createOrder (fun _ => true) 10 demo_db demo_users 7
    (demo_body [line 1 (Some 2); line 42 None])
  = (Failure 404 PRODUCT_NOT_FOUND, demo_db).
Proof.
  refine (proj1 (proj2 (createOrder_business_rule_errors (fun _ => true) 10
            demo_db demo_users 7 (demo_body [line 1 (Some 2); line 42 None])))
            [line 1 (Some 2)] (line 42 None) [] eq_refl _ _).
  - constructor; [| constructor].
    exists (Product.mk 1 "Cafe americano" None 350 None true); split; reflexivity.
  - vm_compute; reflexivity.
Defined.

(** ** C8: the money columns of an order after creation *)










(** ** C9: persisted quantities *)

(** Claim C9 fails: a requested quantity of 0 is stored as 1, and a
    negative requested quantity is stored as it is (3.50 × 1 + 1.00 × -1 =
    2.50 passes the minimum). *)
Lemma createOrder_quantity_counterexample :
  is_success (fst (createOrder no_faults 10 demo_db demo_users 7
                     (demo_body [line 1 (Some 0); line 2 (Some (-1))]))) = true /\
  map OrderItem.quantity
    (orderItems (snd (createOrder no_faults 10 demo_db demo_users 7
                        (demo_body [line 1 (Some 0); line 2 (Some (-1))]))))
  = [1; -1].
Proof. split; vm_compute; reflexivity. Qed.

(** Claim C9, as amended.  Each item row of a successful order stores
    [item.quantity || 1]: 1 when the quantity is absent or 0, the requested
    quantity otherwise, with no check that it is positive. *)
Theorem createOrder_persisted_quantity :
  forall (f : Faults) (now : Z) (db : Db) (users : list User.t) (uid : Z)
         (body : CreateOrderBody.t) (items : list OrderItemInput.t)
         (r : Response) (db' : Db),
    CreateOrderBody.items body = Some items ->
    createOrder f now db users uid body = (r, db') ->
    is_success r = true ->
    exists new_items,
      orderItems db' = orderItems db ++ new_items /\
      Forall2 (fun item i =>
                 (OrderItemInput.quantity item = None -> OrderItem.quantity i = 1) /\
                 (OrderItemInput.quantity item = Some 0 -> OrderItem.quantity i = 1) /\
                 (forall n, OrderItemInput.quantity item = Some n -> n <> 0 ->
                            OrderItem.quantity i = n))
        items new_items.
Proof.
  intros f now db users uid body items r db' Hitems Hrun Hs.
  destruct (createOrder_success_inv _ _ _ _ _ _ _ _ Hrun Hs)
    as (items' & lines & loc & s & pm & sc & tc & new_items & Hi & _ & Hrel
        & _ & _ & _ & _ & _ & _ & Hnew & _ & Hdb & _).
  rewrite Hitems in Hi; injection Hi as Heq; subst items'.
  exists new_items; split; [rewrite Hdb; reflexivity |].
  eapply Forall2_impl; [| exact (created_items_persisted db _ _ _ Hrel _ _ Hnew)].
  intros item i [p [_ [_ [_ [_ [Hq _]]]]]].
  rewrite Hq; unfold quantity_or_default.
  split; [| split].
  - intros ->; reflexivity.
  - intros ->; reflexivity.
  - intros n -> Hn; apply Z.eqb_neq in Hn; rewrite Hn; reflexivity.
Qed.

Lemma createOrder_persisted_quantity_witness :
  exists r db',
    createOrder no_faults 10 demo_db demo_users 7 (demo_body [line 1 None]) = (r, db') /\
    is_success r = true /\
    exists new_items, orderItems db' = orderItems demo_db ++ new_items.
Proof.
  destruct (createOrder no_faults 10 demo_db demo_users 7 (demo_body [line 1 None]))
    as [r db'] eqn:Hrun.
  exists r, db'; split; [reflexivity |].
  assert (Hs : is_success r = true).
  { revert Hrun; vm_compute; intro H; inversion H; reflexivity. }
  split; [exact Hs |].
  destruct (createOrder_persisted_quantity no_faults 10 demo_db demo_users 7
              (demo_body [line 1 None]) [line 1 None] r db' eq_refl Hrun Hs)
    as [ni [Hni _]].
  exists ni; exact Hni.
Defined.

(** ** C6: the number arithmetic of the pricing loop *)

(** Claim C6 fails: with the prices 1.10 and 2.20 the subtotal the loop
    computes is the binary64 number [3.3000000000000003], not the number
    3.30, and the total it computes is not the number 4.30; only the
    [Decimal(8,2)] columns, which round what they receive to cents, store
    330 and 430. *)
Lemma createOrder_float_drift :
  requested_subtotal demo_db [line 4 (Some 1); line 5 (Some 1)]
    <> decimal_to_number 330 /\
  PrimFloat.add (requested_subtotal demo_db [line 4 (Some 1); line 5 (Some 1)])
    1%float <> decimal_to_number 430 /\
  exists o,
    orders (snd (createOrder no_faults 10 demo_db demo_users 7
                   (demo_body [line 4 (Some 1); line 5 (Some 1)])))
    = orders demo_db ++ [o] /\
    Order.subtotal o = 330 /\ Order.total o = 430.
Proof.
  split; [| split].
  - intro H; apply (f_equal Prim2SF) in H; vm_compute in H; discriminate.
  - intro H; apply (f_equal Prim2SF) in H; vm_compute in H; discriminate.
  - eexists; split; [vm_compute; reflexivity | split; reflexivity].
Qed.

(** Claim C6, as amended.  The pricing values of a successful order are
    computed in binary64 and rounded to two decimals only when stored:
    each item row stores, rounded to cents, [unitPrice], the double
    nearest to the catalog price (cents / 100), and the line subtotal, the
    binary64 product of [unitPrice] and the quantity; the order stores,
    rounded to cents, the binary64 sum of the line subtotals from left to
    right starting at 0 ([requested_subtotal]) and the binary64 sum of
    that subtotal and 1.0. *)
Theorem createOrder_binary64_arithmetic :
  forall (f : Faults) (now : Z) (db : Db) (users : list User.t) (uid : Z)
         (body : CreateOrderBody.t) (items : list OrderItemInput.t)
         (r : Response) (db' : Db),
    CreateOrderBody.items body = Some items ->
    createOrder f now db users uid body = (r, db') ->
    is_success r = true ->
    exists o new_items,
      orders db' = orders db ++ [o] /\
      orderItems db' = orderItems db ++ new_items /\
      Forall2 (persisted_line db (Order.id o)) items new_items /\
      decimal_8_2_of_number (requested_subtotal db items) = Some (Order.subtotal o) /\
      decimal_8_2_of_number (PrimFloat.add (requested_subtotal db items) 1%float)
        = Some (Order.total o).
Proof.
  intros f now db users uid body items r db' Hitems Hrun Hs.
  destruct (createOrder_success_inv _ _ _ _ _ _ _ _ Hrun Hs)
    as (items' & lines & loc & s & pm & sc & tc & new_items & Hi & _ & Hrel
        & _ & _ & _ & _ & Hsc & Htc & Hnew & _ & Hdb & _).
  rewrite Hitems in Hi; injection Hi as Heq; subst items'.
  assert (Hreq : sum_subtotals 0%float lines = requested_subtotal db items)
    by exact (sum_subtotals_requested db items lines 0%float Hrel).
  rewrite <- Hreq.
  eexists; exists new_items; rewrite Hdb; simpl.
  split; [reflexivity |]. split; [reflexivity |].
  split; [exact (created_items_persisted db _ _ _ Hrel _ _ Hnew) |].
  split; [exact Hsc | exact Htc].
Qed.

Lemma createOrder_binary64_arithmetic_witness :
  exists r db',
    createOrder no_faults 10 demo_db demo_users 7
      (demo_body [line 4 (Some 1); line 5 (Some 1)]) = (r, db') /\
    exists o, orders db' = orders demo_db ++ [o] /\
      decimal_8_2_of_number
        (requested_subtotal demo_db [line 4 (Some 1); line 5 (Some 1)])
      = Some (Order.subtotal o).
Proof.
  destruct (createOrder no_faults 10 demo_db demo_users 7
              (demo_body [line 4 (Some 1); line 5 (Some 1)])) as [r db'] eqn:Hrun.
  exists r, db'; split; [reflexivity |].
  assert (Hs : is_success r = true).
  { revert Hrun; vm_compute; intro H; inversion H; reflexivity. }
  destruct (createOrder_binary64_arithmetic no_faults 10 demo_db demo_users 7
              (demo_body [line 4 (Some 1); line 5 (Some 1)])
              [line 4 (Some 1); line 5 (Some 1)] r db' eq_refl Hrun Hs)
    as [o [ni [Ho [_ [_ [Hsub _]]]]]].
  exists o; split; [exact Ho | exact Hsub].
Defined.

(** ** C7: no request-shape validation on order creation *)

(** Claim C7 (code divergence).  The order-creation route registers no
    validation chain, so [validationResult] is empty for every body; the
    product lookup runs first, and a missing delivery location or an
    unknown payment method surfaces only when Prisma rejects the order
    write, as the internal error 500 [ORDER_CREATE_ERROR]. *)
Theorem createOrder_no_shape_validation :
  (forall body, validationResult createOrderValidation body = []) /\
  createOrder no_faults 10 demo_db demo_users 7
    (CreateOrderBody.mk (Some [line 1 (Some 2)]) None (Some "CASH"%string) None)
  = (Failure 500 ORDER_CREATE_ERROR, demo_db) /\
  createOrder no_faults 10 demo_db demo_users 7
    (CreateOrderBody.mk (Some [line 1 (Some 2)]) (Some "Pabellon A"%string) None None)
  = (Failure 500 ORDER_CREATE_ERROR, demo_db) /\
  createOrder no_faults 10 demo_db demo_users 7
    (CreateOrderBody.mk (Some [line 1 (Some 2)]) (Some "Pabellon A"%string)
       (Some "BITCOIN"%string) None)
  = (Failure 500 ORDER_CREATE_ERROR, demo_db) /\
  createOrder no_faults 10 demo_db demo_users 7
    (CreateOrderBody.mk (Some [line 42 None]) None (Some "BITCOIN"%string) None)
  = (Failure 404 PRODUCT_NOT_FOUND, demo_db).
Proof.
  split; [intro body; reflexivity |].
  repeat split; vm_compute; reflexivity.
Qed.

(** ** C10: a client cannot observe other users' orders *)

Definition owned_by (uid : Z) (o : Order.t) : bool := Z.eqb (Order.userId o) uid.

Definition items_of (db : Db) (orderId : Z) : list OrderItem.t :=
  filter (fun i => Z.eqb (OrderItem.orderId i) orderId) (orderItems db).

Lemma find_and_filter {A} (p q : A -> bool) (l : list A) :
  find (fun x => p x && q x) l = find p (filter q l).
Proof.
  induction l as [| x l IH]; simpl; [reflexivity |].
  destruct (q x) eqn:Hq, (p x) eqn:Hp; simpl; rewrite ?Hp; try reflexivity; exact IH.
Qed.

Lemma include_order_agree {P U} (select : Product.t -> P) (user : Order.t -> U)
  (db1 db2 : Db) (o : Order.t) :
  products db1 = products db2 ->
  items_of db1 (Order.id o) = items_of db2 (Order.id o) ->
  include_order select user db1 o = include_order select user db2 o.
Proof.
  intros Hp Hi; unfold include_order, items_of, findProduct in *.
  rewrite Hi, Hp; reflexivity.
Qed.

(** Claim C10.  For a CLIENT caller, (a) an id with no order of the caller
    gives 404 [ORDER_NOT_FOUND], whether no order has that id or the order
    with that id belongs to someone else; (b) two stores with the same
    catalog, the same orders of the caller and the same items on those
    orders give the caller the same response, whatever the other users'
    orders are. *)
Theorem getOrderById_client_no_leak :
  (forall (db : Db) (uid oid : Z),
     (forall o, In o (orders db) -> Order.id o = oid -> Order.userId o <> uid) ->
     forall users, getOrderById db users uid CLIENT (Some oid)
                   = Failure 404 ORDER_NOT_FOUND) /\
  (forall (db1 db2 : Db) (users : list User.t) (uid : Z) (id : option Z),
     products db1 = products db2 ->
     filter (owned_by uid) (orders db1) = filter (owned_by uid) (orders db2) ->
     (forall o, In o (filter (owned_by uid) (orders db1)) ->
                items_of db1 (Order.id o) = items_of db2 (Order.id o)) ->
     getOrderById db1 users uid CLIENT id = getOrderById db2 users uid CLIENT id).
Proof.
  split.
  - intros db uid oid Hnone users; simpl.
    destruct (find _ (orders db)) as [o |] eqn:Hf; [| reflexivity].
    apply find_some in Hf as [Hin Hw].
    apply andb_prop in Hw as [Hid Hu].
    apply Z.eqb_eq in Hid; apply Z.eqb_eq in Hu.
    exfalso; exact (Hnone o Hin Hid Hu).
  - intros db1 db2 users uid [oid |] Hp Hown Hitems; simpl; [| reflexivity].
    rewrite (find_and_filter (fun o => Z.eqb (Order.id o) oid)
               (fun o => Z.eqb (Order.userId o) uid) (orders db1)).
    rewrite (find_and_filter (fun o => Z.eqb (Order.id o) oid)
               (fun o => Z.eqb (Order.userId o) uid) (orders db2)).
    change (filter (fun o => Z.eqb (Order.userId o) uid) (orders db1))
      with (filter (owned_by uid) (orders db1)).
    change (filter (fun o => Z.eqb (Order.userId o) uid) (orders db2))
      with (filter (owned_by uid) (orders db2)).
    destruct (find _ (filter (owned_by uid) (orders db1))) as [o |] eqn:Hf.
    + apply find_some in Hf as Hfs; destruct Hfs as [Hin _].
      rewrite <- Hown, Hf.
      unfold getOrderById_include.
      rewrite (include_order_agree _ _ db1 db2 o Hp (Hitems o Hin)); reflexivity.
    + rewrite <- Hown, Hf; reflexivity.
Qed.

Lemma getOrderById_client_no_leak_witness :
  getOrderById demo_db demo_users 7 CLIENT (Some 2) = Failure 404 ORDER_NOT_FOUND /\
  getOrderById demo_db demo_users 7 CLIENT (Some 1)
  = getOrderById (mkDb (products demo_db) (filter (owned_by 7) (orders demo_db))
                    (orderItems demo_db) (notifications demo_db) 3 1 1)
      demo_users 7 CLIENT (Some 1).
Proof.
  destruct getOrderById_client_no_leak as [Ha Hb].
  split.
  - apply Ha. intros o Hin Hid.
    simpl in Hin; destruct Hin as [<- | [<- | []]]; simpl in *; lia.
  - apply (Hb _ _ demo_users 7 (Some 1)); [reflexivity | vm_compute; reflexivity |].
    intros o _; reflexivity.
Defined.

(** * Invariants of the store kept by the order operations *)

(** The store after the two writes of a status change: [order.update] of
    the row [oid] to [to], then one notification to [uid]. *)
Definition status_update_db (now oid uid : Z) (to : OrderStatus)
  (title msg : string) (db : Db) : Db :=
  mkDb (products db) (orders_with_status now oid to (orders db)) (orderItems db)
    (notifications db ++
       [Notification.mk (nextNotificationId db) uid title msg ORDER false
          (Some oid) now])
    (nextOrderId db) (nextOrderItemId db) (nextNotificationId db + 1).

(** Autoincrement ids: every row's id is below its table's counter. *)
Definition ids_below (db : Db) : Prop :=
  Forall (fun o => Order.id o < nextOrderId db) (orders db) /\
  Forall (fun i => OrderItem.id i < nextOrderItemId db) (orderItems db) /\
  Forall (fun n => Notification.id n < nextNotificationId db) (notifications db).

(** Primary keys: no two rows of a table share an id. *)
Definition ids_unique (db : Db) : Prop :=
  NoDup (map Order.id (orders db)) /\
  NoDup (map OrderItem.id (orderItems db)) /\
  NoDup (map Notification.id (notifications db)).

Definition ids_ok (db : Db) : Prop := ids_below db /\ ids_unique db.

(** The counters never go back. *)
Definition counters_le (db db' : Db) : Prop :=
  nextOrderId db <= nextOrderId db' /\
  nextOrderItemId db <= nextOrderItemId db' /\
  nextNotificationId db <= nextNotificationId db'.

(** Foreign keys of [OrderItem]: its order and its product resolve. *)
Definition items_reference_rows (db : Db) : Prop :=
  Forall (fun i => (exists o, findOrder db (OrderItem.orderId i) = Some o) /\
                   (exists p, findProduct db (OrderItem.productId i) = Some p))
    (orderItems db).

(** A notification that names an order is addressed to that order's
    owner. *)
Definition notifications_to_owner (db : Db) : Prop :=
  Forall (fun n => forall oid, Notification.orderId n = Some oid ->
            exists o, findOrder db oid = Some o /\
                      Order.userId o = Notification.userId n)
    (notifications db).

(** The order of the workflow: a status never goes back to an earlier one. *)
Definition status_rank (s : OrderStatus) : nat :=
  match s with
  | PENDING => 0
  | PREPARING => 1
  | READY => 2
  | DELIVERED | CANCELLED => 3
  end.

Definition is_final (s : OrderStatus) : bool :=
  match s with DELIVERED | CANCELLED => true | _ => false end.

Definition status_advances (db db' : Db) : Prop :=
  forall k o, findOrder db k = Some o ->
    exists o', findOrder db' k = Some o' /\
      (status_rank (Order.status o) <= status_rank (Order.status o'))%nat /\
      (is_final (Order.status o) = true -> Order.status o' = Order.status o).

(** ** Shape of the store after each operation *)

Lemma updateOrderStatus_store (f : Faults) (now : Z) (db : Db)
  (id : option Z) (status : string) (r : Response) (db' : Db) :
  updateOrderStatus f now db id status = (r, db') ->
  db' = db \/
  exists oid o to,
    id = Some oid /\ findOrder db oid = Some o /\
    OrderStatus_of_string status = Some to /\
    spec_transition_allowed (Order.status o) to = true /\
    db' = status_update_db now oid (Order.userId o) to
            "Estado del pedido actualizado" (status_message oid status) db.
Proof.
  unfold updateOrderStatus; cbn [validationResult updateOrderStatusValidation flat_map].
  destruct id as [oid |]; [| intro H; inversion H; auto].
  destruct (findOrder db oid) as [o |] eqn:Hf; [| intro H; inversion H; auto].
  destruct (includes (validTransitions (Order.status o)) status) eqn:Hinc;
    simpl; [| intro H; inversion H; auto].
  apply validTransitions_spec in Hinc as [to [Hto Hal]].
  unfold updateOrderStatusTx.
  rewrite (update_then_notify_run f now oid (Order.userId o) o status
             "Estado del pedido actualizado" (status_message oid status) to db Hf Hto).
  destruct (f O), (f 1%nat); intro H; inversion H; subst; auto.
  right; exists oid, o, to; repeat split; auto.
Qed.

Lemma cancelOrder_store (f : Faults) (now : Z) (db : Db) (uid : Z)
  (id : option Z) (r : Response) (db' : Db) :
  cancelOrder f now db uid id = (r, db') ->
  db' = db \/
  exists oid o,
    id = Some oid /\ findOrder db oid = Some o /\
    Order.userId o = uid /\ Order.status o = PENDING /\
    db' = status_update_db now oid uid CANCELLED "Pedido cancelado"
            (cancel_message oid) db /\
    exists updated, r = Success 200 (DataOrder updated) /\
                    updated = set_status now CANCELLED o.
Proof.
  unfold cancelOrder.
  destruct id as [oid |]; [| intro H; inversion H; auto].
  destruct (findOrder db oid) as [o |] eqn:Hf; [| intro H; inversion H; auto].
  destruct (Z.eqb (Order.userId o) uid) eqn:Hu; simpl; [| intro H; inversion H; auto].
  destruct (OrderStatus_eqb (Order.status o) PENDING) eqn:Hp; simpl;
    [| intro H; inversion H; auto].
  unfold cancelOrderTx.
  rewrite (update_then_notify_run f now oid uid o "CANCELLED" "Pedido cancelado"
             (cancel_message oid) CANCELLED db Hf eq_refl).
  destruct (f O), (f 1%nat); intro H; inversion H; subst; auto.
  right; exists oid, o; apply Z.eqb_eq in Hu.
  split; [reflexivity |]. split; [exact Hf |]. split; [exact Hu |].
  split; [destruct (Order.status o); try discriminate; reflexivity |].
  split; [reflexivity |].
  eexists; split; reflexivity.
Qed.

(** ** Lookups through the writes *)

Lemma find_map_same_key {A} (p : A -> bool) (g : A -> A) (l : list A) :
  (forall x, p (g x) = p x) -> find p (map g l) = option_map g (find p l).
Proof.
  intros Hg; induction l as [| x l IH]; simpl; [reflexivity |].
  rewrite Hg; destruct (p x); [reflexivity | exact IH].
Qed.

Lemma find_app_one {A} (p : A -> bool) (l : list A) (x : A) :
  find p (l ++ [x]) =
  match find p l with Some y => Some y | None => if p x then Some x else None end.
Proof.
  induction l as [| y l IH]; simpl; [reflexivity |].
  destruct (p y); [reflexivity | exact IH].
Qed.

Lemma set_status_id (now : Z) (to : OrderStatus) (o : Order.t) :
  Order.id (set_status now to o) = Order.id o.
Proof. reflexivity. Qed.

Lemma findOrder_status_update (now oid uid : Z) (to : OrderStatus)
  (title msg : string) (db : Db) (k : Z) :
  findOrder (status_update_db now oid uid to title msg db) k =
  option_map (fun o' => if Z.eqb (Order.id o') oid then set_status now to o' else o')
    (findOrder db k).
Proof.
  unfold findOrder, status_update_db, orders_with_status; simpl.
  apply find_map_same_key; intros x.
  destruct (Z.eqb (Order.id x) oid); reflexivity.
Qed.

Lemma findOrder_append (db : Db) (o : Order.t) (k : Z) :
  find (fun o' => Z.eqb (Order.id o') k) (orders db ++ [o]) =
  match findOrder db k with
  | Some y => Some y
  | None => if Z.eqb (Order.id o) k then Some o else None
  end.
Proof. unfold findOrder; exact (find_app_one _ _ _). Qed.

Lemma findOrder_below (db : Db) (k : Z) :
  Forall (fun o => Order.id o < nextOrderId db) (orders db) ->
  nextOrderId db <= k -> findOrder db k = None.
Proof.
  intros Hall Hk; unfold findOrder.
  destruct (find _ (orders db)) as [o |] eqn:Hf; [| reflexivity].
  apply find_some in Hf as [Hin Heq]; apply Z.eqb_eq in Heq.
  rewrite Forall_forall in Hall; specialize (Hall o Hin); lia.
Qed.

(** ** Rows created by [createOrder] *)

Lemma created_items_ids (oid : Z) :
  forall lines firstId new_items,
    created_items firstId oid lines = Some new_items ->
    Forall (fun i => firstId <= OrderItem.id i < firstId + Z.of_nat (List.length lines))
      new_items /\
    NoDup (map OrderItem.id new_items).
Proof.
  induction lines as [| l ls IH]; intros firstId new_items Hc.
  - injection Hc as <-; split; constructor.
  - apply created_items_cons in Hc as (i & rest & Hrow & Hrest & ->).
    apply orderItem_row_some in Hrow as (_ & _ & _ & Hi).
    destruct (IH (firstId + 1) rest Hrest) as [Hb Hn]; split.
    + constructor; [rewrite Hi; simpl; lia |].
      eapply Forall_impl; [| exact Hb]; intros x Hx; simpl in *; lia.
    + simpl; constructor; [| exact Hn].
      intros Hin; apply in_map_iff in Hin as [x [Hx Hin]].
      rewrite Forall_forall in Hb; specialize (Hb x Hin); rewrite Hi in Hx;
        simpl in Hx; lia.
Qed.

Lemma nodup_app_disjoint {A} (l1 l2 : list A) :
  NoDup l1 -> NoDup l2 -> (forall x, In x l1 -> In x l2 -> False) ->
  NoDup (l1 ++ l2).
Proof.
  induction l1 as [| x l1 IH]; intros H1 H2 Hd; simpl; [exact H2 |].
  inversion H1 as [| ? ? Hx Hl1]; subst; constructor.
  - intros Hin; apply in_app_or in Hin as [Hin | Hin];
      [exact (Hx Hin) | exact (Hd x (or_introl eq_refl) Hin)].
  - apply IH; auto. intros y Hy1 Hy2; exact (Hd y (or_intror Hy1) Hy2).
Qed.

Lemma nodup_ids_below {A} (id : A -> Z) (l new : list A) (bound : Z) :
  NoDup (map id l) -> Forall (fun x => id x < bound) l ->
  NoDup (map id new) -> Forall (fun x => bound <= id x) new ->
  NoDup (map id (l ++ new)).
Proof.
  intros Hl Hb Hn Hnb; rewrite map_app; apply nodup_app_disjoint; auto.
  intros z Hz1 Hz2; apply in_map_iff in Hz1 as [x [<- Hx]];
    apply in_map_iff in Hz2 as [y [Hy Hy']].
  rewrite Forall_forall in Hb, Hnb; specialize (Hb x Hx); specialize (Hnb y Hy'); lia.
Qed.

Lemma orders_with_status_ids (now oid : Z) (to : OrderStatus) (l : list Order.t) :
  map Order.id (orders_with_status now oid to l) = map Order.id l.
Proof.
  unfold orders_with_status; rewrite map_map.
  apply map_ext; intros o; destruct (Z.eqb (Order.id o) oid); reflexivity.
Qed.

Lemma Forall_orders_with_status (P : Order.t -> Prop) (now oid : Z)
  (to : OrderStatus) (l : list Order.t) :
  (forall o, P o -> P (set_status now to o)) ->
  Forall P l -> Forall P (orders_with_status now oid to l).
Proof.
  intros HP Hl; unfold orders_with_status; apply Forall_map.
  eapply Forall_impl; [| exact Hl]; intros o Ho.
  destruct (Z.eqb (Order.id o) oid); auto.
Qed.

Lemma createOrder_store (f : Faults) (now : Z) (db : Db) (users : list User.t)
  (uid : Z) (body : CreateOrderBody.t) (r : Response) (db' : Db) :
  createOrder f now db users uid body = (r, db') ->
  db' = db \/
  exists items lines o new_items,
    Forall2 (line_of db) items lines /\
    created_items (nextOrderItemId db) (Order.id o) lines = Some new_items /\
    Order.id o = nextOrderId db /\ Order.userId o = uid /\
    Order.status o = PENDING /\
    db' = mkDb (products db) (orders db ++ [o]) (orderItems db ++ new_items)
            (notifications db ++
               [confirm_notification now uid (Order.id o) (nextNotificationId db)])
            (nextOrderId db + 1)
            (nextOrderItemId db + Z.of_nat (List.length lines))
            (nextNotificationId db + 1) /\
    r = Success 201 (DataCreatedOrder (option_map (createOrder_include db' users)
                                         (findOrder db' (Order.id o)))).
Proof.
  intros Hrun; destruct (is_success r) eqn:Hs.
  - right.
    destruct (createOrder_success_inv _ _ _ _ _ _ _ _ Hrun Hs)
      as (items & lines & loc & s & pm & sc & tc & new_items & _ & _ & Hrel
          & _ & _ & _ & _ & _ & _ & Hnew & _ & Hrest).
    cbv zeta in Hrest; destruct Hrest as [Hdb Hr].
    exists items, lines,
      (Order.mk (nextOrderId db) uid PENDING loc pm sc 100 tc
         (CreateOrderBody.notes body) now now), new_items.
    split; [exact Hrel |]. split; [exact Hnew |].
    split; [reflexivity |]. split; [reflexivity |].
    split; [reflexivity |]. split; [exact Hdb | exact Hr].
  - left; exact (createOrder_failure_store _ _ _ _ _ _ _ _ Hrun Hs).
Qed.

Lemma Forall2_Forall_r {A B} (P : A -> B -> Prop) (xs : list A) (ys : list B) :
  Forall2 P xs ys -> Forall (fun y => exists x, P x y) ys.
Proof. induction 1; constructor; eauto. Qed.

Lemma ids_ok_status_update (now oid uid : Z) (to : OrderStatus)
  (title msg : string) (db : Db) :
  counters_le db (status_update_db now oid uid to title msg db) /\
  (ids_ok db -> ids_ok (status_update_db now oid uid to title msg db)).
Proof.
  split; [unfold counters_le; simpl; lia |].
  intros [[Ho [Hi Hn]] [Uo [Ui Un]]]; unfold status_update_db.
  split; [split; [| split] | split; [| split]]; simpl.
  - apply Forall_orders_with_status; [intros o Ho'; exact Ho' | exact Ho].
  - exact Hi.
  - apply Forall_app; split.
    + eapply Forall_impl; [| exact Hn]; intros n Hn'; simpl in *; lia.
    + constructor; [simpl; lia | constructor].
  - rewrite orders_with_status_ids; exact Uo.
  - exact Ui.
  - apply (nodup_ids_below Notification.id _ _ (nextNotificationId db)); auto.
    + simpl; constructor; [intros [] | constructor].
    + constructor; [simpl; lia | constructor].
Qed.

Lemma items_reference_status_update (now oid uid : Z) (to : OrderStatus)
  (title msg : string) (db : Db) :
  items_reference_rows db ->
  items_reference_rows (status_update_db now oid uid to title msg db).
Proof.
  unfold items_reference_rows; intros H; simpl.
  eapply Forall_impl; [| exact H]; intros i [[o Ho] Hp].
  split; [| exact Hp].
  rewrite findOrder_status_update, Ho; eexists; reflexivity.
Qed.

Lemma notifications_status_update (now oid uid : Z) (to : OrderStatus)
  (title msg : string) (db : Db) (o : Order.t) :
  findOrder db oid = Some o -> Order.userId o = uid ->
  notifications_to_owner db ->
  notifications_to_owner (status_update_db now oid uid to title msg db).
Proof.
  unfold notifications_to_owner; intros Hf Hu H; simpl.
  apply Forall_app; split.
  - eapply Forall_impl; [| exact H]; intros n Hn k Hk.
    destruct (Hn k Hk) as [o' [Ho' Hu']].
    rewrite findOrder_status_update, Ho'; simpl.
    eexists; split; [reflexivity |].
    destruct (Z.eqb (Order.id o') oid); exact Hu'.
  - constructor; [| constructor]; simpl; intros k Hk; injection Hk as <-.
    rewrite findOrder_status_update, Hf; simpl.
    eexists; split; [reflexivity |].
    destruct (Z.eqb (Order.id o) oid); exact Hu.
Qed.

Lemma status_advances_refl (db : Db) : status_advances db db.
Proof. intros k o Ho; exists o; split; [exact Ho | split; auto]. Qed.

Lemma status_advances_update (now oid uid : Z) (to : OrderStatus)
  (title msg : string) (db : Db) (o : Order.t) :
  findOrder db oid = Some o ->
  spec_transition_allowed (Order.status o) to = true ->
  status_advances db (status_update_db now oid uid to title msg db).
Proof.
  intros Hf Hal k o' Ho'.
  rewrite findOrder_status_update, Ho'; simpl.
  eexists; split; [reflexivity |].
  destruct (Z.eqb (Order.id o') oid) eqn:Hid; [| split; auto].
  apply Z.eqb_eq in Hid.
  assert (Hk : k = oid).
  { unfold findOrder in Ho'; apply find_some in Ho' as [_ Hk];
      apply Z.eqb_eq in Hk; lia. }
  subst k; rewrite Hf in Ho'; injection Ho' as <-; simpl.
  destruct (Order.status o), to; simpl in Hal; try discriminate;
    split; simpl; [lia | intro Hfin; discriminate Hfin | lia | intro Hfin; discriminate Hfin
                  | lia | intro Hfin; discriminate Hfin | lia | intro Hfin; discriminate Hfin
                  | lia | intro Hfin; discriminate Hfin | lia | intro Hfin; discriminate Hfin].
Qed.

Lemma counters_le_refl (db : Db) : counters_le db db.
Proof. unfold counters_le; lia. Qed.

Lemma created_items_refer (db : Db) (oid : Z) (items : list OrderItemInput.t)
  (lines : list ProcessedOrderItem.t) (firstId : Z) (new_items : list OrderItem.t) :
  Forall2 (line_of db) items lines ->
  created_items firstId oid lines = Some new_items ->
  Forall (fun i => OrderItem.orderId i = oid /\
                   exists p, findProduct db (OrderItem.productId i) = Some p)
    new_items.
Proof.
  intros Hrel Hnew.
  pose proof (Forall2_Forall_r _ _ _
                (created_items_persisted db oid items lines Hrel firstId new_items Hnew))
    as H.
  eapply Forall_impl; [| exact H].
  intros i [item [p [Hp [_ [Hoid [Hpid _]]]]]].
  split; [exact Hoid | exists p; rewrite Hpid; exact Hp].
Qed.

(** ** The invariants *)

(** Ids stay below the autoincrement counters and unique, and the counters
    never decrease, through every order operation. *)
Theorem order_operations_keep_ids :
  (forall f now db users uid body r db',
     createOrder f now db users uid body = (r, db') ->
     counters_le db db' /\ (ids_ok db -> ids_ok db')) /\
  (forall f now db id status r db',
     updateOrderStatus f now db id status = (r, db') ->
     counters_le db db' /\ (ids_ok db -> ids_ok db')) /\
  (forall f now db uid id r db',
     cancelOrder f now db uid id = (r, db') ->
     counters_le db db' /\ (ids_ok db -> ids_ok db')).
Proof.
  split; [| split].
  - intros f now db users uid body r db' Hrun.
    destruct (createOrder_store _ _ _ _ _ _ _ _ Hrun)
      as [-> | (items & lines & o & new_items & Hrel & Hnew & Hid & _ & _ & Hdb & _)];
      [split; [apply counters_le_refl | auto] |].
    subst db'; split; [unfold counters_le; simpl; lia |].
    intros [[Ho [Hi Hn]] [Uo [Ui Un]]].
    destruct (created_items_ids (Order.id o) lines (nextOrderItemId db) new_items Hnew)
      as [Hb Hnd].
    split; [split; [| split] | split; [| split]]; simpl.
    + apply Forall_app; split.
      * eapply Forall_impl; [| exact Ho]; intros x Hx; simpl in *; lia.
      * constructor; [simpl in *; lia | constructor].
    + apply Forall_app; split.
      * eapply Forall_impl; [| exact Hi]; intros x Hx; simpl in *; lia.
      * eapply Forall_impl; [| exact Hb]; intros x Hx; simpl in *; lia.
    + apply Forall_app; split.
      * eapply Forall_impl; [| exact Hn]; intros x Hx; simpl in *; lia.
      * constructor; [simpl; lia | constructor].
    + apply (nodup_ids_below Order.id _ _ (nextOrderId db)); auto.
      * simpl; constructor; [intros [] | constructor].
      * constructor; [simpl in *; lia | constructor].
    + apply (nodup_ids_below OrderItem.id _ _ (nextOrderItemId db)); auto.
      eapply Forall_impl; [| exact Hb]; intros x Hx; simpl in *; lia.
    + apply (nodup_ids_below Notification.id _ _ (nextNotificationId db)); auto.
      * simpl; constructor; [intros [] | constructor].
      * constructor; [simpl; lia | constructor].
  - intros f now db id status r db' Hrun.
    destruct (updateOrderStatus_store _ _ _ _ _ _ _ Hrun)
      as [-> | [oid [o [to [_ [_ [_ [_ ->]]]]]]]];
      [split; [apply counters_le_refl | auto] | apply ids_ok_status_update].
  - intros f now db uid id r db' Hrun.
    destruct (cancelOrder_store _ _ _ _ _ _ _ Hrun)
      as [-> | [oid [o [_ [_ [_ [_ [-> _]]]]]]]];
      [split; [apply counters_le_refl | auto] | apply ids_ok_status_update].
Qed.

Lemma order_operations_keep_ids_witness :
  ids_ok demo_db /\
  ids_ok (snd (createOrder no_faults 10 demo_db demo_users 7 (demo_body [line 1 (Some 2)]))).
Proof.
  assert (H0 : ids_ok demo_db).
  { split; [split; [| split] | split; [| split]]; simpl;
      repeat constructor; simpl; try lia; intuition discriminate. }
  split; [exact H0 |].
  destruct (createOrder no_faults 10 demo_db demo_users 7 (demo_body [line 1 (Some 2)]))
    as [r db'] eqn:Hrun; simpl.
  exact (proj2 (proj1 order_operations_keep_ids no_faults 10 demo_db demo_users 7
                  (demo_body [line 1 (Some 2)]) r db' Hrun) H0).
Defined.

(** Every order item points to an order and a product that exist, through
    every order operation. *)
Theorem order_operations_keep_item_references :
  (forall f now db users uid body r db',
     createOrder f now db users uid body = (r, db') ->
     items_reference_rows db -> items_reference_rows db') /\
  (forall f now db id status r db',
     updateOrderStatus f now db id status = (r, db') ->
     items_reference_rows db -> items_reference_rows db') /\
  (forall f now db uid id r db',
     cancelOrder f now db uid id = (r, db') ->
     items_reference_rows db -> items_reference_rows db').
Proof.
  split; [| split].
  - intros f now db users uid body r db' Hrun H.
    destruct (createOrder_store _ _ _ _ _ _ _ _ Hrun)
      as [-> | (items & lines & o & new_items & Hrel & Hnew & _ & _ & _ & Hdb & _)];
      [exact H |].
    subst db'; unfold items_reference_rows in *; simpl.
    apply Forall_app; split.
    + eapply Forall_impl; [| exact H]; intros i [[o' Ho'] Hp]; split; [| exact Hp].
      unfold findOrder at 1; simpl; rewrite findOrder_append, Ho'; eauto.
    + eapply Forall_impl; [| exact (created_items_refer db (Order.id o) items lines
                                        (nextOrderItemId db) new_items Hrel Hnew)].
      intros i [Hoid Hp]; split; [| exact Hp].
      unfold findOrder at 1; simpl; rewrite findOrder_append, Hoid, Z.eqb_refl.
      destruct (findOrder db (Order.id o)); eauto.
  - intros f now db id status r db' Hrun H.
    destruct (updateOrderStatus_store _ _ _ _ _ _ _ Hrun)
      as [-> | [oid [o [to [_ [_ [_ [_ ->]]]]]]]];
      [exact H | apply items_reference_status_update; exact H].
  - intros f now db uid id r db' Hrun H.
    destruct (cancelOrder_store _ _ _ _ _ _ _ Hrun)
      as [-> | [oid [o [_ [_ [_ [_ [-> _]]]]]]]];
      [exact H | apply items_reference_status_update; exact H].
Qed.

Lemma order_operations_keep_item_references_witness :
  items_reference_rows
    (snd (createOrder no_faults 10 demo_db demo_users 7 (demo_body [line 1 (Some 2)]))).
Proof.
  destruct (createOrder no_faults 10 demo_db demo_users 7 (demo_body [line 1 (Some 2)]))
    as [r db'] eqn:Hrun; simpl.
  apply (proj1 order_operations_keep_item_references no_faults 10 demo_db demo_users 7
           (demo_body [line 1 (Some 2)]) r db' Hrun).
  constructor.
Defined.

(** A notification that names an order is addressed to the owner of that
    order, through every order operation (given autoincrement order ids). *)
Theorem order_operations_notify_owner :
  (forall f now db users uid body r db',
     Forall (fun o => Order.id o < nextOrderId db) (orders db) ->
     createOrder f now db users uid body = (r, db') ->
     notifications_to_owner db -> notifications_to_owner db') /\
  (forall f now db id status r db',
     updateOrderStatus f now db id status = (r, db') ->
     notifications_to_owner db -> notifications_to_owner db') /\
  (forall f now db uid id r db',
     cancelOrder f now db uid id = (r, db') ->
     notifications_to_owner db -> notifications_to_owner db').
Proof.
  split; [| split].
  - intros f now db users uid body r db' Hbelow Hrun H.
    destruct (createOrder_store _ _ _ _ _ _ _ _ Hrun)
      as [-> | (items & lines & o & new_items & _ & _ & Hid & Hu & _ & Hdb & _)];
      [exact H |].
    subst db'; unfold notifications_to_owner in *; simpl.
    apply Forall_app; split.
    + eapply Forall_impl; [| exact H]; intros n Hn k Hk.
      destruct (Hn k Hk) as [o' [Ho' Hu']]; exists o'; split; [| exact Hu'].
      unfold findOrder at 1; simpl; rewrite findOrder_append, Ho'; reflexivity.
    + constructor; [| constructor]; simpl; intros k Hk; injection Hk as <-.
      exists o; split; [| exact Hu].
      unfold findOrder at 1; simpl; rewrite findOrder_append, Z.eqb_refl.
      rewrite (findOrder_below db (Order.id o) Hbelow); [reflexivity | lia].
  - intros f now db id status r db' Hrun H.
    destruct (updateOrderStatus_store _ _ _ _ _ _ _ Hrun)
      as [-> | [oid [o [to [_ [Hf [_ [_ ->]]]]]]]];
      [exact H | exact (notifications_status_update _ _ _ _ _ _ _ o Hf eq_refl H)].
  - intros f now db uid id r db' Hrun H.
    destruct (cancelOrder_store _ _ _ _ _ _ _ Hrun)
      as [-> | [oid [o [_ [Hf [Hu [_ [-> _]]]]]]]];
      [exact H | exact (notifications_status_update _ _ _ _ _ _ _ o Hf Hu H)].
Qed.

Lemma order_operations_notify_owner_witness :
  notifications_to_owner
    (snd (createOrder no_faults 10 demo_db demo_users 7 (demo_body [line 1 (Some 2)]))).
Proof.
  destruct (createOrder no_faults 10 demo_db demo_users 7 (demo_body [line 1 (Some 2)]))
    as [r db'] eqn:Hrun; simpl.
  apply (proj1 order_operations_notify_owner no_faults 10 demo_db demo_users 7
           (demo_body [line 1 (Some 2)]) r db'); [| exact Hrun | constructor].
  repeat constructor; simpl; lia.
Defined.

(** No operation moves an order's status back in the workflow
    PENDING, PREPARING, READY, then DELIVERED or CANCELLED, and a DELIVERED
    or CANCELLED order keeps its status. *)
Theorem order_status_never_regresses :
  (forall f now db users uid body r db',
     createOrder f now db users uid body = (r, db') -> status_advances db db') /\
  (forall f now db id status r db',
     updateOrderStatus f now db id status = (r, db') -> status_advances db db') /\
  (forall f now db uid id r db',
     cancelOrder f now db uid id = (r, db') -> status_advances db db').
Proof.
  split; [| split].
  - intros f now db users uid body r db' Hrun.
    destruct (createOrder_store _ _ _ _ _ _ _ _ Hrun)
      as [-> | (items & lines & o & new_items & _ & _ & _ & _ & _ & Hdb & _)];
      [apply status_advances_refl |].
    subst db'; intros k o' Ho'; exists o'.
    unfold findOrder at 1; simpl; rewrite findOrder_append, Ho'; auto.
  - intros f now db id status r db' Hrun.
    destruct (updateOrderStatus_store _ _ _ _ _ _ _ Hrun)
      as [-> | [oid [o [to [_ [Hf [_ [Hal ->]]]]]]]];
      [apply status_advances_refl | exact (status_advances_update _ _ _ _ _ _ _ o Hf Hal)].
  - intros f now db uid id r db' Hrun.
    destruct (cancelOrder_store _ _ _ _ _ _ _ Hrun)
      as [-> | [oid [o [_ [Hf [_ [Hp [-> _]]]]]]]];
      [apply status_advances_refl |].
    apply (status_advances_update _ _ _ _ _ _ _ o Hf); rewrite Hp; reflexivity.
Qed.

Lemma order_status_never_regresses_witness :
  status_advances demo_db
    (snd (updateOrderStatus no_faults 10 demo_db (Some 2) "DELIVERED"%string)).
Proof.
  destruct (updateOrderStatus no_faults 10 demo_db (Some 2) "DELIVERED"%string)
    as [r db'] eqn:Hrun; simpl.
  exact (proj1 (proj2 order_status_never_regresses) no_faults 10 demo_db
           (Some 2) "DELIVERED"%string r db' Hrun).
Defined.

Lemma cancelOrder_success_store (f : Faults) (now : Z) (db : Db) (uid oid : Z)
  (r : Response) (db' : Db) :
  cancelOrder f now db uid (Some oid) = (r, db') -> is_success r = true ->
  exists o,
    findOrder db oid = Some o /\ Order.userId o = uid /\
    db' = status_update_db now oid uid CANCELLED "Pedido cancelado"
            (cancel_message oid) db.
Proof.
  unfold cancelOrder.
  destruct (findOrder db oid) as [o |] eqn:Hf; [| intros H; inversion H; subst; discriminate].
  destruct (Z.eqb (Order.userId o) uid) eqn:Hu; simpl;
    [| intros H; inversion H; subst; discriminate].
  destruct (OrderStatus_eqb (Order.status o) PENDING); simpl;
    [| intros H; inversion H; subst; discriminate].
  unfold cancelOrderTx.
  rewrite (update_then_notify_run f now oid uid o "CANCELLED" "Pedido cancelado"
             (cancel_message oid) CANCELLED db Hf eq_refl).
  destruct (f O), (f 1%nat); intros H; inversion H; subst; try discriminate.
  intros _; exists o; apply Z.eqb_eq in Hu; auto.
Qed.

Lemma findOrder_id (db : Db) (k : Z) (o : Order.t) :
  findOrder db k = Some o -> Order.id o = k.
Proof.
  unfold findOrder; intros H; apply find_some in H as [_ H]; apply Z.eqb_eq; exact H.
Qed.

(** Once an order has been cancelled, cancelling it again fails with
    [ORDER_CANNOT_BE_CANCELLED] and every status change fails with
    [INVALID_STATUS_TRANSITION], and neither touches the store. *)
Theorem cancelOrder_is_final :
  forall (f f' : Faults) (now now' : Z) (db : Db) (uid oid : Z)
         (r : Response) (db' : Db),
    cancelOrder f now db uid (Some oid) = (r, db') ->
    is_success r = true ->
    cancelOrder f' now' db' uid (Some oid)
      = (Failure 400 ORDER_CANNOT_BE_CANCELLED, db') /\
    (forall status,
       updateOrderStatus f' now' db' (Some oid) status
       = (Failure 400 INVALID_STATUS_TRANSITION, db')).
Proof.
  intros f f' now now' db uid oid r db' Hrun Hs.
  destruct (cancelOrder_success_store _ _ _ _ _ _ _ Hrun Hs) as [o [Hf [Hu ->]]].
  assert (Hf' : findOrder (status_update_db now oid uid CANCELLED "Pedido cancelado"
                             (cancel_message oid) db) oid
                = Some (set_status now CANCELLED o)).
  { rewrite findOrder_status_update, Hf; simpl.
    rewrite (findOrder_id _ _ _ Hf), Z.eqb_refl; reflexivity. }
  split.
  - unfold cancelOrder; rewrite Hf'; simpl; rewrite Hu, Z.eqb_refl; reflexivity.
  - intros status; unfold updateOrderStatus; simpl; rewrite Hf'; reflexivity.
Qed.

Lemma cancelOrder_is_final_witness :
  exists r db',
    cancelOrder no_faults 10 demo_db 7 (Some 1) = (r, db') /\
    is_success r = true /\
    cancelOrder no_faults 11 db' 7 (Some 1)
      = (Failure 400 ORDER_CANNOT_BE_CANCELLED, db').
Proof.
  destruct (cancelOrder no_faults 10 demo_db 7 (Some 1)) as [r db'] eqn:Hrun.
  exists r, db'; split; [reflexivity |].
  assert (Hs : is_success r = true).
  { revert Hrun; vm_compute; intro H; inversion H; reflexivity. }
  split; [exact Hs |].
  exact (proj1 (cancelOrder_is_final no_faults no_faults 10 11 demo_db 7 1 r db' Hrun Hs)).
Defined.

Lemma find_none_below (db : Db) (p : Order.t -> bool) :
  Forall (fun o => Order.id o < nextOrderId db) (orders db) ->
  (forall o, p o = true -> Order.id o = nextOrderId db) ->
  find p (orders db) = None.
Proof.
  intros Hall Hp; destruct (find p (orders db)) as [o |] eqn:Hf; [| reflexivity].
  apply find_some in Hf as [Hin Ho]; apply Hp in Ho.
  rewrite Forall_forall in Hall; specialize (Hall o Hin); lia.
Qed.

(** The projection of [createOrder]'s response is the one of
    [getOrderById] without the product description and the user phone. *)
Definition card_of_detail (d : ProductDetail) : ProductCard :=
  mkProductCard (pd_id d) (pd_name d) (pd_imageUrl d) (pd_price d).

Definition contact_of_summary (u : UserSummary) : UserContact :=
  mkUserContact (us_id u) (us_firstName u) (us_lastName u) (us_email u).

Definition narrow_detail (v : OrderWith ProductDetail (option UserSummary))
  : OrderWith ProductCard (option UserContact) :=
  mkOrderWith (ow_order v)
    (map (fun ip => (fst ip, option_map card_of_detail (snd ip))) (ow_items v))
    (option_map contact_of_summary (ow_user v)).

Lemma narrow_getOrderById_include (db : Db) (users : list User.t) (o : Order.t) :
  narrow_detail (getOrderById_include db users o) = createOrder_include db users o.
Proof.
  unfold narrow_detail, getOrderById_include, createOrder_include, include_order;
    simpl.
  rewrite map_map; f_equal.
  - apply map_ext; intros i; simpl.
    destruct (findProduct db (OrderItem.productId i)); reflexivity.
  - destruct (findUser users (Order.userId o)); reflexivity.
Qed.

(** A created order is returned with its items and user, and reading it
    back by its id gives the same order, item rows and user, to its owner
    as a CLIENT and to any ADMIN (given autoincrement order ids), in the
    wider projection of [getOrderById]. *)
Theorem createOrder_then_getOrderById :
  forall (f : Faults) (now : Z) (db : Db) (users : list User.t) (uid : Z)
         (body : CreateOrderBody.t) (r : Response) (db' : Db),
    Forall (fun o => Order.id o < nextOrderId db) (orders db) ->
    createOrder f now db users uid body = (r, db') ->
    is_success r = true ->
    exists o,
      r = Success 201 (DataCreatedOrder (Some (createOrder_include db' users o))) /\
      Order.userId o = uid /\
      Order.status o = PENDING /\
      getOrderById db' users uid CLIENT (Some (Order.id o))
        = Success 200 (DataOrderDetail (getOrderById_include db' users o)) /\
      (forall admin,
         getOrderById db' users admin ADMIN (Some (Order.id o))
         = Success 200 (DataOrderDetail (getOrderById_include db' users o))) /\
      narrow_detail (getOrderById_include db' users o)
        = createOrder_include db' users o.
Proof.
  intros f now db users uid body r db' Hbelow Hrun Hs.
  destruct (createOrder_success_inv _ _ _ _ _ _ _ _ Hrun Hs)
    as (items & lines & loc & s & pm & sc & tc & new_items & _ & _ & _
        & _ & _ & _ & _ & _ & _ & _ & _ & Hrest).
  cbv zeta in Hrest; destruct Hrest as [Hdb Hr].
  set (o := Order.mk (nextOrderId db) uid PENDING loc pm sc 100 tc
              (CreateOrderBody.notes body) now now) in *.
  assert (Hord : orders db' = orders db ++ [o]) by (rewrite Hdb; reflexivity).
  assert (Hlook : forall p : Order.t -> bool, p o = true ->
                  (forall o', p o' = true -> Order.id o' = nextOrderId db) ->
                  find p (orders db') = Some o).
  { intros p Hpo Hp; rewrite Hord, find_app_one, (find_none_below db p Hbelow Hp), Hpo.
    reflexivity. }
  assert (Hf : findOrder db' (Order.id o) = Some o).
  { apply Hlook; [apply Z.eqb_refl | intros o' H; apply Z.eqb_eq in H; exact H]. }
  exists o.
  rewrite Hr, Hf; simpl.
  split; [reflexivity |]. split; [reflexivity |]. split; [reflexivity |].
  split; [| split; [| apply narrow_getOrderById_include]].
  - rewrite (Hlook _); [reflexivity | rewrite !Z.eqb_refl; reflexivity |].
    intros o' H; apply andb_prop in H as [H _]; apply Z.eqb_eq in H; exact H.
  - intros admin; rewrite (Hlook _); [reflexivity | rewrite Z.eqb_refl; reflexivity |].
    intros o' H; apply andb_prop in H as [H _]; apply Z.eqb_eq in H; exact H.
Qed.

Lemma createOrder_then_getOrderById_witness :
  exists r db',
    createOrder no_faults 10 demo_db demo_users 7 (demo_body [line 1 (Some 2)])
    = (r, db') /\
    is_success r = true /\
    exists o,
      r = Success 201 (DataCreatedOrder (Some (createOrder_include db' demo_users o))) /\
      getOrderById db' demo_users 7 CLIENT (Some (Order.id o))
        = Success 200 (DataOrderDetail (getOrderById_include db' demo_users o)).
Proof.
  destruct (createOrder no_faults 10 demo_db demo_users 7 (demo_body [line 1 (Some 2)]))
    as [r db'] eqn:Hrun.
  exists r, db'; split; [reflexivity |].
  assert (Hs : is_success r = true).
  { revert Hrun; vm_compute; intro H; inversion H; reflexivity. }
  split; [exact Hs |].
  assert (Hb : Forall (fun o => Order.id o < nextOrderId demo_db) (orders demo_db)).
  { repeat constructor; simpl; lia. }
  destruct (createOrder_then_getOrderById no_faults 10 demo_db demo_users 7
              (demo_body [line 1 (Some 2)]) r db' Hb Hrun Hs)
    as [o [Hv [_ [_ [Hget _]]]]].
  exists o; split; [exact Hv | exact Hget].
Defined.

(** * Listing orders: [getUserOrders] and [getAllOrders] *)

(** A numeric query parameter ([page], [limit]) as the code reads it:
    absent (the destructuring default applies), a value whose [Number(...)]
    is an integer, or one whose [Number(...)] is NaN.  Fractional values are
    outside the model, and integers are taken small enough for the JS
    arithmetic on them to be exact. *)
Inductive QueryNumber := QAbsent | QInt (n : Z) | QNaN.

(** [Number(q)], with [q] defaulting to [default]. *)
Definition query_number (q : QueryNumber) (default : Z) : option Z :=
  match q with
  | QAbsent => Some default
  | QInt n => Some n
  | QNaN => None
  end.

(** [if (status) whereClause.status = status]: an absent or empty [status]
    adds no filter; Prisma refuses a value outside the enum. *)
Definition status_filter (status : option string) : option (option OrderStatus) :=
  match status with
  | None | Some EmptyString => Some None
  | Some s => option_map Some (OrderStatus_of_string s)
  end.

Definition status_matches (st : option OrderStatus) (o : Order.t) : bool :=
  match st with
  | None => true
  | Some s => OrderStatus_eqb (Order.status o) s
  end.

(** [orderBy: { createdAt: "desc" }]: newest first.  Prisma leaves the order
    of equal [createdAt] values unspecified; the model keeps store order. *)
Fixpoint insert_by_createdAt_desc (o : Order.t) (l : list Order.t) : list Order.t :=
  match l with
  | [] => [o]
  | x :: r =>
      if Z.leb (Order.createdAt x) (Order.createdAt o) then o :: l
      else x :: insert_by_createdAt_desc o r
  end.

Definition sort_by_createdAt_desc (l : list Order.t) : list Order.t :=
  fold_right insert_by_createdAt_desc [] l.

(** [skip] and [take] of [findMany]: Prisma refuses a negative [skip]; a
    negative [take] takes [-take] rows from the end of the ordered list,
    after skipping [skip] rows from that end. *)
Definition prisma_skip_take {A} (skip take : Z) (l : list A) : option (list A) :=
  if Z.ltb skip 0 then None
  else if Z.leb 0 take then Some (firstn (Z.to_nat take) (skipn (Z.to_nat skip) l))
  else Some (rev (firstn (Z.to_nat (- take)) (skipn (Z.to_nat skip) (rev l)))).

(** [Math.ceil(a / b)] for integers, [b <> 0]. *)
Definition ceil_div (a b : Z) : Z := - ((- a) / b).

(** The [pagination] object of the response; [pages] is [None] when
    [Math.ceil(total / limit)] is not finite ([limit] 0), which [res.json]
    writes as [null]. *)
Record Pagination := mkPagination {
  pg_page : Z;
  pg_limit : Z;
  pg_total : Z;
  pg_pages : option Z
}.

Definition pagination_of (page limit total : Z) : Pagination :=
  mkPagination page limit total
    (if Z.eqb limit 0 then None else Some (ceil_div total limit)).

Inductive FetchErrorCode := USER_ORDERS_FETCH_ERROR | ALL_ORDERS_FETCH_ERROR.

Inductive ListResponse (V : Type) :=
| ListSuccess (data : list V) (pagination : Pagination)
| ListFailure (httpStatus : Z) (code : FetchErrorCode).

Arguments ListSuccess {V} data pagination.
Arguments ListFailure {V} httpStatus code.


(** [where: { userId, status? }] *)
Definition user_orders_where (userId : Z) (st : option OrderStatus)
  (o : Order.t) : bool :=
  Z.eqb (Order.userId o) userId && status_matches st o.

Definition user_matching (db : Db) (userId : Z) (st : option OrderStatus)
  : list Order.t :=
  filter (user_orders_where userId st) (orders db).

(** [OrderController.getUserOrders]: [findMany] (with the items and their
    products) and [count] on the same [where]; any Prisma error is caught as
    500 [USER_ORDERS_FETCH_ERROR]. *)
Definition getUserOrders (db : Db) (userId : Z) (status : option string)
  (page limit : QueryNumber) : ListResponse (OrderWith ProductCard unit) :=
  match query_number page 1, query_number limit 10, status_filter status with
  | Some p, Some l, Some st =>
      let skip := (p - 1) * l in
      let matching := user_matching db userId st in
      match prisma_skip_take skip l (sort_by_createdAt_desc matching) with
      | Some page_orders =>
          ListSuccess (map (getUserOrders_include db) page_orders)
            (pagination_of p l (Z.of_nat (List.length matching)))
      | None => ListFailure 500 USER_ORDERS_FETCH_ERROR
      end
  | _, _, _ => ListFailure 500 USER_ORDERS_FETCH_ERROR
  end.

(** The [date] query parameter: absent or empty, a string [new Date]
    parses to the instant [start] (in ms), or one it does not parse. *)
Inductive DateQuery := DateAbsent | DateValid (start : Z) | DateInvalid.

(** [createdAt: { gte: startDate, lt: endDate }], where [endDate] is
    [startDate] moved one calendar day forward by
    [endDate.setDate(endDate.getDate() + 1)] in the server's time zone
    ([addOneDay]); Prisma refuses an invalid [Date]. *)
Definition date_filter (addOneDay : Z -> Z) (date : DateQuery)
  : option (option (Z * Z)) :=
  match date with
  | DateAbsent => Some None
  | DateValid start => Some (Some (start, addOneDay start))
  | DateInvalid => None
  end.

Definition all_orders_where (st : option OrderStatus) (range : option (Z * Z))
  (o : Order.t) : bool :=
  status_matches st o &&
  match range with
  | None => true
  | Some (gte, lt) => Z.leb gte (Order.createdAt o) && Z.ltb (Order.createdAt o) lt
  end.

(** [OrderController.getAllOrders] (admin route). *)
Definition getAllOrders (addOneDay : Z -> Z) (db : Db) (users : list User.t)
  (status : option string) (date : DateQuery) (page limit : QueryNumber)
  : ListResponse (OrderWith ProductBrief (option UserSummary)) :=
  match query_number page 1, query_number limit 20, status_filter status,
        date_filter addOneDay date with
  | Some p, Some l, Some st, Some range =>
      let skip := (p - 1) * l in
      let matching := filter (all_orders_where st range) (orders db) in
      match prisma_skip_take skip l (sort_by_createdAt_desc matching) with
      | Some page_orders =>
          ListSuccess (map (getAllOrders_include db users) page_orders)
            (pagination_of p l (Z.of_nat (List.length matching)))
      | None => ListFailure 500 ALL_ORDERS_FETCH_ERROR
      end
  | _, _, _, _ => ListFailure 500 ALL_ORDERS_FETCH_ERROR
  end.

(** ** Lemmas on sorting, paging and [ceil_div] *)


Lemma insert_by_createdAt_desc_perm (o : Order.t) (l : list Order.t) :
  Permutation (insert_by_createdAt_desc o l) (o :: l).
Proof.
  induction l as [| x l IH]; simpl; [reflexivity |].
  destruct (Z.leb (Order.createdAt x) (Order.createdAt o)); [reflexivity |].
  rewrite IH; apply perm_swap.
Qed.

Lemma sort_by_createdAt_desc_perm (l : list Order.t) :
  Permutation (sort_by_createdAt_desc l) l.
Proof.
  unfold sort_by_createdAt_desc; induction l as [| x l IH]; simpl; [reflexivity |].
  rewrite insert_by_createdAt_desc_perm, IH; reflexivity.
Qed.



Lemma in_firstn_l {A} (n : nat) (l : list A) (x : A) : In x (firstn n l) -> In x l.
Proof. intros H; rewrite <- (firstn_skipn n l); apply in_or_app; left; exact H. Qed.

Lemma in_skipn_l {A} (n : nat) (l : list A) (x : A) : In x (skipn n l) -> In x l.
Proof. intros H; rewrite <- (firstn_skipn n l); apply in_or_app; right; exact H. Qed.

Lemma prisma_skip_take_sub {A} (skip take : Z) (l r : list A) :
  prisma_skip_take skip take l = Some r ->
  incl r l /\ (List.length r <= Z.to_nat (Z.abs take))%nat.
Proof.
  unfold prisma_skip_take.
  destruct (Z.ltb skip 0); [discriminate |].
  destruct (Z.leb_spec 0 take) as [Ht | Ht]; intros Hr; injection Hr as <-; split.
  - intros x Hx; exact (in_skipn_l _ _ _ (in_firstn_l _ _ _ Hx)).
  - rewrite length_firstn; lia.
  - intros x Hx; apply in_rev in Hx; apply in_firstn_l, in_skipn_l in Hx.
    apply in_rev; exact Hx.
  - rewrite length_rev, length_firstn; lia.
Qed.





(** ** Properties of the listings *)

(** [getUserOrders] returns only orders of the caller that match the
    status filter; [total] counts all of them, and a page holds at most
    [|limit|] orders. *)
Theorem getUserOrders_only_callers_orders :
  forall (db : Db) (uid : Z) (status : option string) (page limit : QueryNumber)
         (data : list (OrderWith ProductCard unit)) (pg : Pagination),
    getUserOrders db uid status page limit = ListSuccess data pg ->
    exists st page_orders,
      status_filter status = Some st /\
      data = map (getUserOrders_include db) page_orders /\
      (forall o, In o page_orders ->
         In o (orders db) /\ Order.userId o = uid /\ status_matches st o = true) /\
      pg_total pg = Z.of_nat (List.length (user_matching db uid st)) /\
      (List.length page_orders <= Z.to_nat (Z.abs (pg_limit pg)))%nat.
Proof.
  intros db uid status page limit data pg; unfold getUserOrders.
  destruct (query_number page 1) as [p |]; [| discriminate].
  destruct (query_number limit 10) as [l |]; [| discriminate].
  destruct (status_filter status) as [st |]; [| discriminate].
  destruct (prisma_skip_take _ _ _) as [po |] eqn:Hst; [| discriminate].
  intros H; injection H as <- <-.
  destruct (prisma_skip_take_sub _ _ _ _ Hst) as [Hincl Hlen].
  exists st, po; split; [reflexivity |]. split; [reflexivity |].
  split; [| split; [reflexivity | exact Hlen]].
  intros o Ho; apply Hincl in Ho.
  apply (Permutation_in _ (sort_by_createdAt_desc_perm _)) in Ho.
  unfold user_matching in Ho; apply filter_In in Ho as [Hin Hw].
  apply andb_prop in Hw as [Hu Hs]; apply Z.eqb_eq in Hu; auto.
Qed.

Lemma getUserOrders_only_callers_orders_witness :
  exists data pg,
    getUserOrders demo_db 7 None QAbsent QAbsent = ListSuccess data pg /\
    forall o, In o (orders demo_db) -> Order.userId o = 7 ->
              exists st po, status_filter None = Some st /\
                            data = map (getUserOrders_include demo_db) po.
Proof.
  destruct (getUserOrders demo_db 7 None QAbsent QAbsent) as [data pg | st c] eqn:Hrun;
    [| vm_compute in Hrun; discriminate].
  exists data, pg; split; [reflexivity |].
  intros _ _ _.
  destruct (getUserOrders_only_callers_orders demo_db 7 None QAbsent QAbsent data pg Hrun)
    as [st [po [Hs [Hd _]]]].
  exists st, po; split; [exact Hs | exact Hd].
Defined.



(** Edge cases of [getUserOrders]: a [status] outside the enum, a page
    below 1 with a positive [limit], and a [limit] of 0. *)
Theorem getUserOrders_edge_cases :
  (forall db uid s page limit,
     s <> EmptyString -> OrderStatus_of_string s = None ->
     getUserOrders db uid (Some s) page limit = ListFailure 500 USER_ORDERS_FETCH_ERROR) /\
  (forall db uid status p l,
     p < 1 -> 0 < l ->
     getUserOrders db uid status (QInt p) (QInt l) = ListFailure 500 USER_ORDERS_FETCH_ERROR) /\
  (forall db uid status st p,
     status_filter status = Some st ->
     getUserOrders db uid status (QInt p) (QInt 0)
     = ListSuccess [] (mkPagination p 0 (Z.of_nat (List.length (user_matching db uid st))) None)).
Proof.
  split; [| split].
  - intros db uid s page limit Hne Hs; unfold getUserOrders.
    assert (Hf : status_filter (Some s) = None).
    { destruct s; [contradiction | simpl; rewrite Hs; reflexivity]. }
    rewrite Hf; destruct (query_number page 1), (query_number limit 10); reflexivity.
  - intros db uid status p l Hp Hl; unfold getUserOrders; simpl.
    destruct (status_filter status); [| reflexivity].
    unfold prisma_skip_take; destruct (Z.ltb_spec ((p - 1) * l) 0); [reflexivity | nia].
  - intros db uid status st p Hst; unfold getUserOrders; simpl; rewrite Hst.
    unfold prisma_skip_take; rewrite Z.mul_0_r; simpl; reflexivity.
Qed.

Lemma getUserOrders_edge_cases_witness :
  getUserOrders demo_db 7 (Some "SHIPPED"%string) QAbsent QAbsent
    = ListFailure 500 USER_ORDERS_FETCH_ERROR /\
  getUserOrders demo_db 7 None (QInt 0) (QInt 10)
    = ListFailure 500 USER_ORDERS_FETCH_ERROR.
Proof.
  destruct getUserOrders_edge_cases as [Ha [Hb _]].
  split.
  - apply Ha; [discriminate | reflexivity].
  - apply Hb; lia.
Defined.

(** [getAllOrders] returns orders of the store that match the status filter
    and, for a [date], were created in [[start, next day)]; [total] counts all
    matching orders; an unparsable [date] gives 500. *)
Theorem getAllOrders_filters :
  (forall addOneDay db users status date page limit data pg,
     getAllOrders addOneDay db users status date page limit = ListSuccess data pg ->
     exists st range page_orders,
       status_filter status = Some st /\
       date_filter addOneDay date = Some range /\
       data = map (getAllOrders_include db users) page_orders /\
       (forall o, In o page_orders ->
          In o (orders db) /\ status_matches st o = true /\
          (forall start, date = DateValid start ->
             start <= Order.createdAt o < addOneDay start)) /\
       pg_total pg = Z.of_nat (List.length (filter (all_orders_where st range) (orders db))) /\
       (List.length page_orders <= Z.to_nat (Z.abs (pg_limit pg)))%nat) /\
  (forall addOneDay db users status page limit,
     getAllOrders addOneDay db users status DateInvalid page limit
     = ListFailure 500 ALL_ORDERS_FETCH_ERROR).
Proof.
  split.
  - intros addOneDay db users status date page limit data pg; unfold getAllOrders.
    destruct (query_number page 1) as [p |]; [| discriminate].
    destruct (query_number limit 20) as [l |]; [| discriminate].
    destruct (status_filter status) as [st |]; [| discriminate].
    destruct (date_filter addOneDay date) as [range |] eqn:Hdate; [| discriminate].
    destruct (prisma_skip_take _ _ _) as [po |] eqn:Hst; [| discriminate].
    intros H; injection H as <- <-.
    destruct (prisma_skip_take_sub _ _ _ _ Hst) as [Hincl Hlen].
    exists st, range, po.
    split; [reflexivity |]. split; [reflexivity |]. split; [reflexivity |].
    split; [| split; [reflexivity | exact Hlen]].
    intros o Ho; apply Hincl in Ho.
    apply (Permutation_in _ (sort_by_createdAt_desc_perm _)) in Ho.
    apply filter_In in Ho as [Hin Hw].
    unfold all_orders_where in Hw; apply andb_prop in Hw as [Hs Hr].
    split; [exact Hin |]. split; [exact Hs |].
    intros start ->; simpl in Hdate; injection Hdate as <-.
    apply andb_prop in Hr as [H1 H2]; apply Z.leb_le in H1; apply Z.ltb_lt in H2; lia.
  - intros addOneDay db users status page limit; unfold getAllOrders; simpl.
    destruct (query_number page 1), (query_number limit 20), (status_filter status);
      reflexivity.
Qed.

Lemma getAllOrders_filters_witness :
  exists data pg,
    getAllOrders (fun t => t + 86400000) demo_db [] None (DateValid 0) QAbsent QAbsent
      = ListSuccess data pg /\
    pg_total pg = 2.
Proof.
  destruct (getAllOrders (fun t => t + 86400000) demo_db [] None (DateValid 0)
              QAbsent QAbsent) as [data pg | st c] eqn:Hrun;
    [| vm_compute in Hrun; discriminate].
  exists data, pg; split; [reflexivity |].
  destruct (proj1 getAllOrders_filters _ _ _ _ _ _ _ _ _ Hrun)
    as [st [range [po [Hs [Hd [_ [_ [Ht _]]]]]]]].
  rewrite Ht; simpl in Hs, Hd; injection Hs as <-; injection Hd as <-.
  reflexivity.
Defined.

(** * Authentication middleware and the order routes *)

(** [JWTPayload] of [utils/auth.ts]. *)
Record JWTPayload := mkJWTPayload {
  payload_userId : Z;
  payload_email : string;
  payload_role : string
}.

(** [jwt.verify(token, JWT_SECRET)]: the decoded payload, or the [name] of
    the error it throws ([TokenExpiredError], [JsonWebTokenError], ...). *)
Inductive VerifyResult :=
| Verified (p : JWTPayload)
| VerifyError (name : string).

(** [req.user]: the payload extended with [isVerified] and [isActive]. *)
Record AuthUser := mkAuthUser {
  au_payload : JWTPayload;
  au_isVerified : bool;
  au_isActive : bool
}.

Inductive AuthErrorCode :=
| NO_TOKEN | USER_NOT_FOUND | USER_INACTIVE | TOKEN_EXPIRED | TOKEN_MALFORMED
| AUTH_ERROR | AUTH_REQUIRED | ADMIN_REQUIRED.

Inductive MiddlewareResult :=
| Next (user : AuthUser)
| Reject (httpStatus : Z) (code : AuthErrorCode).

(** [s.split(" ")] *)
Fixpoint split_space (s : string) : list string :=
  match s with
  | EmptyString => [EmptyString]
  | String c rest =>
      let parts := split_space rest in
      if Ascii.eqb c " "%char then EmptyString :: parts
      else match parts with
           | w :: ws => String c w :: ws
           | [] => [String c EmptyString]
           end
  end.

(** [authHeader && authHeader.split(" ")[1]], [None] when falsy. *)
Definition bearer_token (authorization : option string) : option string :=
  match authorization with
  | None | Some EmptyString => None
  | Some h =>
      match nth_error (split_space h) 1 with
      | Some (String c t) => Some (String c t)
      | _ => None
      end
  end.

(** [authenticateToken] ([middleware/auth.ts]). *)
Definition authenticateToken (verify : string -> VerifyResult)
  (users : list User.t) (authorization : option string) : MiddlewareResult :=
  match bearer_token authorization with
  | None => Reject 401 NO_TOKEN
  | Some token =>
      match verify token with
      | VerifyError name =>
          if String.eqb name "TokenExpiredError" then Reject 401 TOKEN_EXPIRED
          else if String.eqb name "JsonWebTokenError" then Reject 401 TOKEN_MALFORMED
          else Reject 500 AUTH_ERROR
      | Verified p =>
          match find (fun u => Z.eqb (User.id u) (payload_userId p)) users with
          | None => Reject 401 USER_NOT_FOUND
          | Some u =>
              if negb (User.isActive u) then Reject 401 USER_INACTIVE
              else Next (mkAuthUser p (User.isVerified u) (User.isActive u))
          end
      end
  end.

(** [requireAdmin]: checks [req.user.role], the role of the token. *)
Definition requireAdmin (user : option AuthUser) : MiddlewareResult :=
  match user with
  | None => Reject 401 AUTH_REQUIRED
  | Some u =>
      if String.eqb (payload_role (au_payload u)) "ADMIN" then Next u
      else Reject 403 ADMIN_REQUIRED
  end.

(** [userRole !== "ADMIN"] of [getOrderById]. *)
Definition role_of_payload (role : string) : Role :=
  if String.eqb role "ADMIN" then ADMIN else CLIENT.

Inductive Routed (A : Type) :=
| AuthRejected (httpStatus : Z) (code : AuthErrorCode)
| Handled (a : A).

Arguments AuthRejected {A} httpStatus code.
Arguments Handled {A} a.

(** [router.patch("/admin/:id/status", authenticateToken, requireAdmin,
    OrderController.updateOrderStatus)] *)
Definition route_updateOrderStatus (verify : string -> VerifyResult)
  (users : list User.t) (authorization : option string) (f : Faults) (now : Z)
  (db : Db) (id : option Z) (status : string) : Routed Response * Db :=
  match authenticateToken verify users authorization with
  | Reject st c => (AuthRejected st c, db)
  | Next u =>
      match requireAdmin (Some u) with
      | Reject st c => (AuthRejected st c, db)
      | Next _ =>
          let (r, db') := updateOrderStatus f now db id status in (Handled r, db')
      end
  end.

(** [router.get("/admin/all", authenticateToken, requireAdmin,
    OrderController.getAllOrders)] *)
Definition route_getAllOrders (verify : string -> VerifyResult)
  (users : list User.t) (authorization : option string) (addOneDay : Z -> Z)
  (db : Db) (status : option string) (date : DateQuery) (page limit : QueryNumber)
  : Routed (ListResponse (OrderWith ProductBrief (option UserSummary))) :=
  match authenticateToken verify users authorization with
  | Reject st c => AuthRejected st c
  | Next u =>
      match requireAdmin (Some u) with
      | Reject st c => AuthRejected st c
      | Next _ => Handled (getAllOrders addOneDay db users status date page limit)
      end
  end.

(** [router.patch("/:id/cancel", authenticateToken, OrderController.cancelOrder)] *)
Definition route_cancelOrder (verify : string -> VerifyResult)
  (users : list User.t) (authorization : option string) (f : Faults) (now : Z)
  (db : Db) (id : option Z) : Routed Response * Db :=
  match authenticateToken verify users authorization with
  | Reject st c => (AuthRejected st c, db)
  | Next u =>
      let (r, db') := cancelOrder f now db (payload_userId (au_payload u)) id in
      (Handled r, db')
  end.

(** [router.get("/:id", authenticateToken, OrderController.getOrderById)] *)
Definition route_getOrderById (verify : string -> VerifyResult)
  (users : list User.t) (authorization : option string) (db : Db)
  (id : option Z) : Routed Response :=
  match authenticateToken verify users authorization with
  | Reject st c => AuthRejected st c
  | Next u =>
      Handled (getOrderById db users (payload_userId (au_payload u))
                 (role_of_payload (payload_role (au_payload u))) id)
  end.

(** The columns of [User] that [authenticateToken] reads. *)
Definition auth_columns (u : User.t) : Z * bool * bool :=
  (User.id u, User.isActive u, User.isVerified u).

(** No space in a string. *)
Fixpoint no_space (s : string) : bool :=
  match s with
  | EmptyString => true
  | String c rest => negb (Ascii.eqb c " "%char) && no_space rest
  end.

(** ** Properties of the middleware and the routes *)

(** The request carries a verified token of an existing active user, and the
    token's role is ["ADMIN"]. *)
Definition admin_authenticated (verify : string -> VerifyResult)
  (users : list User.t) (authorization : option string) : Prop :=
  exists token p u,
    bearer_token authorization = Some token /\
    verify token = Verified p /\
    find (fun u => Z.eqb (User.id u) (payload_userId p)) users = Some u /\
    User.isActive u = true /\
    payload_role p = "ADMIN"%string.

Lemma authenticateToken_next (verify : string -> VerifyResult) (users : list User.t)
  (authorization : option string) (a : AuthUser) :
  authenticateToken verify users authorization = Next a ->
  exists token u,
    bearer_token authorization = Some token /\
    verify token = Verified (au_payload a) /\
    find (fun u => Z.eqb (User.id u) (payload_userId (au_payload a))) users = Some u /\
    User.isActive u = true.
Proof.
  unfold authenticateToken.
  destruct (bearer_token authorization) as [token |]; [| discriminate].
  destruct (verify token) as [p | name] eqn:Hv.
  - destruct (find _ users) as [u |] eqn:Hf; [| discriminate].
    destruct (User.isActive u) eqn:Ha; simpl; [| discriminate].
    intros H; injection H as <-; simpl; exists token, u; auto.
  - destruct (String.eqb name _); [discriminate |].
    destruct (String.eqb name _); discriminate.
Qed.

(** The admin routes reach their controller only for an authenticated
    active user whose token says ["ADMIN"]; a rejected request leaves the
    store as it was, and a token with another role gets 403
    [ADMIN_REQUIRED]. *)
Theorem admin_routes_require_admin_role :
  (forall verify users authorization f now db id status r db',
     route_updateOrderStatus verify users authorization f now db id status = (r, db') ->
     (forall st c, r = AuthRejected st c -> db' = db) /\
     (forall x, r = Handled x -> admin_authenticated verify users authorization)) /\
  (forall verify users authorization addOneDay db status date page limit x,
     route_getAllOrders verify users authorization addOneDay db status date page limit
       = Handled x ->
     admin_authenticated verify users authorization) /\
  (forall verify users authorization token p u,
     bearer_token authorization = Some token ->
     verify token = Verified p ->
     find (fun u => Z.eqb (User.id u) (payload_userId p)) users = Some u ->
     User.isActive u = true ->
     payload_role p <> "ADMIN"%string ->
     (forall f now db id status,
        route_updateOrderStatus verify users authorization f now db id status
        = (AuthRejected 403 ADMIN_REQUIRED, db)) /\
     (forall addOneDay db status date page limit,
        route_getAllOrders verify users authorization addOneDay db status date page limit
        = AuthRejected 403 ADMIN_REQUIRED)).
Proof.
  split; [| split].
  - intros verify users authorization f now db id status r db'.
    unfold route_updateOrderStatus.
    destruct (authenticateToken verify users authorization) as [a | st c] eqn:Hauth;
      [| intros H; injection H as <- <-; split; [auto | intros x Hx; discriminate]].
    simpl; destruct (String.eqb_spec (payload_role (au_payload a)) "ADMIN") as [Hadm | Hadm];
      [| intros H; injection H as <- <-; split; [auto | intros x Hx; discriminate]].
    destruct (updateOrderStatus f now db id status) as [r0 db0].
    intros H; injection H as <- <-; split; [intros st c Hc; discriminate |].
    intros _ _.
    destruct (authenticateToken_next _ _ _ _ Hauth) as [token [u [Ht [Hv [Hf Ha]]]]].
    exists token, (au_payload a), u; auto.
  - intros verify users authorization addOneDay db status date page limit x.
    unfold route_getAllOrders.
    destruct (authenticateToken verify users authorization) as [a | st c] eqn:Hauth;
      [| discriminate].
    simpl; destruct (String.eqb_spec (payload_role (au_payload a)) "ADMIN") as [Hadm | Hadm];
      [| discriminate].
    intros _.
    destruct (authenticateToken_next _ _ _ _ Hauth) as [token [u [Ht [Hv [Hf Ha]]]]].
    exists token, (au_payload a), u; auto.
  - intros verify users authorization token p u Ht Hv Hf Ha Hrole.
    assert (Hauth : authenticateToken verify users authorization
                    = Next (mkAuthUser p (User.isVerified u) (User.isActive u))).
    { unfold authenticateToken; rewrite Ht, Hv, Hf, Ha; reflexivity. }
    assert (Hreq : requireAdmin (Some (mkAuthUser p (User.isVerified u) (User.isActive u)))
                   = Reject 403 ADMIN_REQUIRED).
    { simpl; destruct (String.eqb_spec (payload_role p) "ADMIN"); [contradiction | reflexivity]. }
    split.
    + intros f now db id status; unfold route_updateOrderStatus; rewrite Hauth, Hreq; reflexivity.
    + intros addOneDay db status date page limit; unfold route_getAllOrders;
        rewrite Hauth, Hreq; reflexivity.
Qed.

Definition demo_verify (token : string) : VerifyResult :=
  if String.eqb token "t7" then Verified (mkJWTPayload 7 "ana@ucss.pe" "CLIENT")
  else if String.eqb token "t9" then Verified (mkJWTPayload 9 "luis@ucss.pe" "ADMIN")
  else VerifyError "JsonWebTokenError".

Lemma admin_routes_require_admin_role_witness :
  route_updateOrderStatus demo_verify demo_users (Some "Bearer t7"%string) no_faults 10
    demo_db (Some 2) "DELIVERED"%string = (AuthRejected 403 ADMIN_REQUIRED, demo_db).
Proof.
  destruct (proj2 (proj2 admin_routes_require_admin_role) demo_verify demo_users
              (Some "Bearer t7"%string) "t7"%string
              (mkJWTPayload 7 "ana@ucss.pe" "CLIENT") (User.mk 7 "ana@ucss.pe" "Ana" "Quispe" (Some "987654321"%string) CLIENT true true)
              eq_refl eq_refl eq_refl eq_refl ltac:(discriminate)) as [Hu _].
  apply Hu.
Defined.

Lemma find_proj_agree {B} (g : User.t -> B) (k : Z) :
  (forall u1 u2, g u1 = g u2 -> User.id u1 = User.id u2) ->
  forall users1 users2 : list User.t,
    map g users1 = map g users2 ->
    option_map g (find (fun u => Z.eqb (User.id u) k) users1) =
    option_map g (find (fun u => Z.eqb (User.id u) k) users2).
Proof.
  intros Hg.
  induction users1 as [| u1 l1 IH]; intros [| u2 l2] H; simpl in H;
    try discriminate; [reflexivity |].
  assert (Hc : g u1 = g u2) by congruence.
  assert (Hl : map g l1 = map g l2) by congruence.
  simpl; rewrite (Hg u1 u2 Hc).
  destruct (Z.eqb (User.id u2) k); [simpl; rewrite Hc; reflexivity |].
  exact (IH l2 Hl).
Qed.

Lemma find_auth_columns (k : Z) :
  forall users1 users2 : list User.t,
    map auth_columns users1 = map auth_columns users2 ->
    option_map auth_columns (find (fun u => Z.eqb (User.id u) k) users1) =
    option_map auth_columns (find (fun u => Z.eqb (User.id u) k) users2).
Proof.
  apply find_proj_agree; intros u1 u2 H; unfold auth_columns in H; congruence.
Qed.

Lemma findUser_summary_agree (users1 users2 : list User.t) (k : Z) :
  map user_summary users1 = map user_summary users2 ->
  option_map user_summary (findUser users1 k) = option_map user_summary (findUser users2 k).
Proof.
  apply find_proj_agree; intros u1 u2 H; unfold user_summary in H; congruence.
Qed.

Lemma getOrderById_users_agree (db : Db) (users1 users2 : list User.t)
  (uid : Z) (role : Role) (id : option Z) :
  map user_summary users1 = map user_summary users2 ->
  getOrderById db users1 uid role id = getOrderById db users2 uid role id.
Proof.
  intros H; unfold getOrderById.
  destruct id as [oid |]; [| reflexivity].
  destruct (find _ (orders db)) as [o |]; [| reflexivity].
  unfold getOrderById_include, include_order; cbv beta.
  rewrite (findUser_summary_agree users1 users2 (Order.userId o) H); reflexivity.
Qed.

Lemma getAllOrders_users_agree (addOneDay : Z -> Z) (db : Db)
  (users1 users2 : list User.t) (status : option string) (date : DateQuery)
  (page limit : QueryNumber) :
  map user_summary users1 = map user_summary users2 ->
  getAllOrders addOneDay db users1 status date page limit
  = getAllOrders addOneDay db users2 status date page limit.
Proof.
  intros H; unfold getAllOrders.
  destruct (query_number page 1), (query_number limit 20), (status_filter status),
    (date_filter addOneDay date); try reflexivity.
  destruct (prisma_skip_take _ _ _) as [page_orders |]; [| reflexivity].
  f_equal; apply map_ext; intros ord; unfold getAllOrders_include, include_order;
    cbv beta.
  rewrite (findUser_summary_agree users1 users2 (Order.userId ord) H); reflexivity.
Qed.

(** The status-changing routes read only the id, [isActive] and
    [isVerified] of the caller's stored row: two user tables that agree on
    these columns give the same outcome, so the role that counts is the one
    in the token.  The reading routes [getOrderById] and [getAllOrders]
    also return the id, names, email and phone of each order's owner, but
    never a stored role: two user tables that agree on every column except
    [role] give the same outcome. *)
Theorem order_routes_use_token_role :
  forall (verify : string -> VerifyResult) (users1 users2 : list User.t)
         (authorization : option string),
    map auth_columns users1 = map auth_columns users2 ->
    authenticateToken verify users1 authorization
      = authenticateToken verify users2 authorization /\
    (forall f now db id status,
       route_updateOrderStatus verify users1 authorization f now db id status
       = route_updateOrderStatus verify users2 authorization f now db id status) /\
    (forall f now db id,
       route_cancelOrder verify users1 authorization f now db id
       = route_cancelOrder verify users2 authorization f now db id) /\
    (map user_summary users1 = map user_summary users2 ->
     (forall db id,
        route_getOrderById verify users1 authorization db id
        = route_getOrderById verify users2 authorization db id) /\
     (forall addOneDay db status date page limit,
        route_getAllOrders verify users1 authorization addOneDay db status date
          page limit
        = route_getAllOrders verify users2 authorization addOneDay db status date
            page limit)).
Proof.
  intros verify users1 users2 authorization Hcols.
  assert (Hauth : authenticateToken verify users1 authorization
                  = authenticateToken verify users2 authorization).
  { unfold authenticateToken.
    destruct (bearer_token authorization) as [token |]; [| reflexivity].
    destruct (verify token) as [p | name]; [| reflexivity].
    pose proof (find_auth_columns (payload_userId p) users1 users2 Hcols) as Hf.
    destruct (find _ users1) as [u1 |], (find _ users2) as [u2 |];
      simpl in Hf; try discriminate; [| reflexivity].
    unfold auth_columns in Hf.
    assert (Ha : User.isActive u1 = User.isActive u2) by congruence.
    assert (Hver : User.isVerified u1 = User.isVerified u2) by congruence.
    rewrite Ha, Hver; reflexivity. }
  split; [exact Hauth |].
  split; [| split]; [intros; unfold route_updateOrderStatus; rewrite Hauth;
                     reflexivity
                    | intros; unfold route_cancelOrder; rewrite Hauth; reflexivity |].
  intros Hsum; split.
  - intros db id; unfold route_getOrderById; rewrite Hauth.
    destruct (authenticateToken verify users2 authorization); [| reflexivity].
    rewrite (getOrderById_users_agree db users1 users2 _ _ id Hsum); reflexivity.
  - intros addOneDay db status date page limit; unfold route_getAllOrders;
      rewrite Hauth.
    destruct (authenticateToken verify users2 authorization) as [u |]; [| reflexivity].
    destruct (requireAdmin (Some u)); [| reflexivity].
    rewrite (getAllOrders_users_agree addOneDay db users1 users2 status date page
               limit Hsum); reflexivity.
Qed.

Lemma order_routes_use_token_role_witness :
  route_updateOrderStatus demo_verify
    [User.mk 9 "luis@ucss.pe" "Luis" "Rojas" None CLIENT true true]
    (Some "Bearer t9"%string) no_faults 10 demo_db (Some 2) "DELIVERED"%string
  = route_updateOrderStatus demo_verify
      [User.mk 9 "luis@ucss.pe" "Luis" "Rojas" None ADMIN true true]
      (Some "Bearer t9"%string) no_faults 10 demo_db (Some 2) "DELIVERED"%string.
Proof.
  exact (proj1 (proj2 (order_routes_use_token_role demo_verify
            [User.mk 9 "luis@ucss.pe" "Luis" "Rojas" None CLIENT true true]
            [User.mk 9 "luis@ucss.pe" "Luis" "Rojas" None ADMIN true true]
            (Some "Bearer t9"%string) eq_refl)) no_faults 10 demo_db (Some 2)
            "DELIVERED"%string).
Defined.

Lemma split_space_cons (s : string) : split_space s <> [].
Proof.
  destruct s as [| c s]; simpl; [discriminate |].
  destruct (Ascii.eqb c " "%char); [discriminate |].
  destruct (split_space s); discriminate.
Qed.

Lemma split_space_word (w s : string) :
  no_space w = true ->
  split_space (w ++ s)%string =
  match split_space s with
  | x :: xs => (w ++ x)%string :: xs
  | [] => [w]
  end.
Proof.
  induction w as [| c w IH]; simpl; intros Hw.
  - destruct (split_space s) eqn:Hs; [exfalso; exact (split_space_cons s Hs) | reflexivity].
  - apply andb_prop in Hw as [Hc Hw]; apply negb_true_iff in Hc; rewrite Hc, (IH Hw).
    destruct (split_space s); reflexivity.
Qed.

Lemma split_space_no_space (w : string) :
  no_space w = true -> split_space w = [w].
Proof.
  induction w as [| c w IH]; simpl; intros Hw; [reflexivity |].
  apply andb_prop in Hw as [Hc Hw]; apply negb_true_iff in Hc; rewrite Hc, (IH Hw).
  reflexivity.
Qed.

(** [authenticateToken] takes the second space-separated word of the
    [Authorization] header as the token whatever the first word is (the
    ["Bearer"] scheme is not checked), and a header without a space gives
    401 [NO_TOKEN]. *)
Theorem authorization_scheme_unchecked :
  (forall w t : string,
     no_space w = true -> no_space t = true -> t <> EmptyString ->
     bearer_token (Some (w ++ String " "%char t)%string) = Some t) /\
  (forall verify users (h : string),
     no_space h = true -> authenticateToken verify users (Some h) = Reject 401 NO_TOKEN).
Proof.
  split.
  - intros w t Hw Ht Hne.
    assert (Hsplit : split_space (w ++ String " "%char t)%string = [(w ++ "")%string; t]).
    { rewrite (split_space_word w _ Hw); simpl; rewrite (split_space_no_space t Ht).
      reflexivity. }
    assert (Hb : forall h, h <> EmptyString ->
                   bearer_token (Some h) =
                   match nth_error (split_space h) 1 with
                   | Some (String c t) => Some (String c t)
                   | _ => None
                   end) by (intros [| c r] Hr; [contradiction | reflexivity]).
    rewrite Hb by (destruct w; discriminate).
    rewrite Hsplit; simpl.
    destruct t; [contradiction | reflexivity].
  - intros verify users h Hh; unfold authenticateToken, bearer_token.
    destruct h as [| c r]; [reflexivity |].
    rewrite (split_space_no_space _ Hh); reflexivity.
Qed.

Lemma authorization_scheme_unchecked_witness :
  bearer_token (Some "Basic t9"%string) = Some "t9"%string /\
  authenticateToken demo_verify demo_users (Some "t9"%string) = Reject 401 NO_TOKEN.
Proof.
  split.
  - exact (proj1 authorization_scheme_unchecked "Basic"%string "t9"%string
             eq_refl eq_refl ltac:(discriminate)).
  - exact (proj2 authorization_scheme_unchecked demo_verify demo_users "t9"%string eq_refl).
Defined.

(** The cancel route acts for the token's user only: whatever the token's
    role, an order of another user gets 403 [ORDER_ACCESS_DENIED] and the
    store is unchanged. *)
Theorem cancel_route_owner_only :
  forall (verify : string -> VerifyResult) (users : list User.t)
         (authorization : option string) (f : Faults) (now : Z) (db : Db)
         (oid : Z) (o : Order.t) (token : string) (p : JWTPayload) (u : User.t),
    bearer_token authorization = Some token ->
    verify token = Verified p ->
    find (fun u => Z.eqb (User.id u) (payload_userId p)) users = Some u ->
    User.isActive u = true ->
    findOrder db oid = Some o ->
    Order.userId o <> payload_userId p ->
    route_cancelOrder verify users authorization f now db (Some oid)
    = (Handled (Failure 403 ORDER_ACCESS_DENIED), db).
Proof.
  intros verify users authorization f now db oid o token p u Ht Hv Hf Ha Ho Hne.
  unfold route_cancelOrder, authenticateToken; rewrite Ht, Hv, Hf, Ha; simpl.
  unfold cancelOrder; rewrite Ho.
  destruct (Z.eqb_spec (Order.userId o) (payload_userId p)); [contradiction | reflexivity].
Qed.

Lemma cancel_route_owner_only_witness :
  route_cancelOrder demo_verify demo_users (Some "Bearer t9"%string) no_faults 10
    demo_db (Some 1) = (Handled (Failure 403 ORDER_ACCESS_DENIED), demo_db).
Proof.
  apply (cancel_route_owner_only demo_verify demo_users (Some "Bearer t9"%string)
           no_faults 10 demo_db 1
           (Order.mk 1 7 PENDING "Pabellon A" CASH 700 100 800 None 0 0)
           "t9"%string (mkJWTPayload 9 "luis@ucss.pe" "ADMIN")
           (User.mk 9 "luis@ucss.pe" "Luis" "Rojas" None ADMIN true true));
    try reflexivity; discriminate.
Defined.
